(** * shoob.scraper: the command-line driver [main.py] and the scraping
      orchestrator it drives

    The development has two layers.

    - [Module Driver] embeds [src/main.py]: [print_summary], [main] and the
      [if __name__ == "__main__"] block.  The scraper object that [main]
      builds with [ShoobCardScraper()] is an interface ([ScraperClass]): the
      driver is verified for every implementation of it.
    - [Module Orchestrator] is the scraper behind that interface.  Its source
      ([scraper.py]) is not among the sources, so it is modelled from the
      specification (sections 4.1, 4.2 and 6).

    [Module DriverFacts] and [Module DriverExtras] hold what is proved of
    the driver for every scraper, [Module OrchestratorFacts] what is proved
    of the orchestrator, [Module RunFacts] what is proved of the driver
    running a scraper, the orchestrator among them, [Module Samples] and
    [Module ExtraSamples] the runs on concrete inputs.

    Python values are typed: dictionaries with a fixed set of keys are
    records, an absent key is [None], integers are [Z], floats are idealised
    as rationals [Q], the text given to [print] is a constructor of [output]
    carrying the interpolated values, and the text read by [input] is the
    sequence of its Unicode code points.  Exceptions are an error monad over
    the world state; [KeyboardInterrupt] is raised by the external call
    during which the user interrupts.  The two [sys.platform == "win32"]
    blocks (warning filters, event-loop policy and loop closing) touch
    nothing that is modelled and are left out. *)

From Stdlib Require Import ZArith QArith String Ascii List Lia Bool.
From stdpp Require Import base decidable option list sets gmap sorting.
Import ListNotations.

Close Scope Q_scope.
Local Open Scope string_scope.
Local Open Scope list_scope.
Local Open Scope Z_scope.

(** ** Data model *)

Definition PageNumber := Z.

Record Card := mkCard { name : string; tier : string; series : string }.

(** The dictionary [stats] that [scrape_all_pages] returns and [main]
    prints (lines 208-214). *)
Record RunStatistics := mkStats {
  pages_scraped : Z;
  pages_skipped : Z;
  cards_extracted : Z;
  errors : Z;
  elapsed_time : Q;
  success_rate : Q;
  cards_per_second : Q
}.

(** The dictionary that [get_scraped_data_summary] returns.  [print_summary]
    reads every key with [.get], so each key may be absent. *)
Record Summary := mkSummary {
  output_file : option string;
  total_cards : option Z;
  scraped_pages : option (gset Z);
  sample_cards : option (list Card);
  file_size_mb : option Q
}.

(** [scraper.config], of which [main] reads three keys. *)
Record Config := mkConfig {
  start_page : Z;
  end_page : option Z;
  output_folder : string
}.

(** The namespace built by [parse_arguments] (lines 51-85). *)
Record Args := mkArgs {
  start : option Z;
  end_ : option Z;
  resume : bool;
  summary : bool;
  config : option string;
  verbose : bool
}.

(** ** Python truth values *)

Class Truthy (A : Type) := truthy : A -> bool.

#[global] Instance truthy_int : Truthy Z := fun z => negb (z =? 0).
#[global] Instance truthy_float : Truthy Q := fun q => negb (Qeq_bool q 0).
#[global] Instance truthy_list {A} : Truthy (list A) :=
  fun l => match l with [] => false | _ :: _ => true end.
#[global] Instance truthy_set : Truthy (gset Z) :=
  fun X => truthy (elements X).
#[global] Instance truthy_optional {A} `{Truthy A} : Truthy (option A) :=
  fun o => match o with Some a => truthy a | None => false end.

(** [sorted] on a set of integers. *)
Definition sorted (X : gset Z) : list Z := merge_sort Z.le (elements X).

(** ** The text read from the user: [str.strip] and [str.lower] *)

(** A Python [str], as the sequence of its Unicode code points. *)
Definition str := list N.

(** A literal of the source, character by character. *)
Fixpoint str_of (s : string) : str :=
  match s with
  | String c s' => N_of_ascii c :: str_of s'
  | EmptyString => []
  end.

Arguments str_of : simpl never.

(** The characters that [str.strip] removes, those for which [str.isspace]
    holds: the ASCII controls U+0009 to U+000D and U+001C to U+001F, the
    space, U+0085, U+00A0, U+1680, U+2000 to U+200A, U+2028, U+2029, U+202F,
    U+205F and U+3000. *)
Definition is_space (c : N) : bool :=
  ((9 <=? c) && (c <=? 13) || (28 <=? c) && (c <=? 32)
   || (c =? 133) || (c =? 160) || (c =? 5760)
   || (8192 <=? c) && (c <=? 8202)
   || (c =? 8232) || (c =? 8233) || (c =? 8239) || (c =? 8287) || (c =? 12288))%N.

Fixpoint lstrip (s : str) : str :=
  match s with
  | c :: s' => if is_space c then lstrip s' else s
  | [] => []
  end.

Fixpoint rstrip (s : str) : str :=
  match s with
  | c :: s' =>
      match rstrip s' with
      | [] => if is_space c then [] else [c]
      | r => c :: r
      end
  | [] => []
  end.

Definition strip (s : str) : str := rstrip (lstrip s).

(** [str.lower] maps every cased character to its lower-case form.  The
    ASCII part of the mapping is written out and the other characters are
    left as they are: in the Unicode tables the only characters whose
    lower-case form contains [y], [e] or [s] are these letters and [Y], [E],
    [S], and no character has an empty lower-case form, so the comparison
    with ['y'] and ['yes'] (line 191) is the same as under the full
    mapping. *)
Definition lower_char (c : N) : N :=
  if ((65 <=? c) && (c <=? 90))%N then (c + 32)%N else c.

Definition lower (s : str) : str := map lower_char s.

(** [x in [a, b, ...]] on strings. *)
Definition str_in (x : str) (l : list str) : bool := bool_decide (x ∈ l).

(** ** Exceptions and outcomes *)

(** The exception classes that the handlers of [main.py] tell apart:
    [KeyboardInterrupt], [FileNotFoundError], and every other [Exception].
    The exceptions outside [Exception] other than [KeyboardInterrupt]
    ([SystemExit], [asyncio.CancelledError], [GeneratorExit]), which no
    handler of the file names, are not represented: what is proved is about
    the runs in which the scraper and the prompt raise none of them. *)
Inductive exn : Type :=
| KeyboardInterrupt
| FileNotFoundError (msg : string)
| Exception (msg : string).

(** What a call does: return, raise, or never come back ([Diverges], for the
    page loop without an end page). *)
Inductive outcome (A : Type) : Type :=
| Ok (a : A)
| Raise (e : exn)
| Diverges.
Arguments Ok {A} a.
Arguments Raise {A} e.
Arguments Diverges {A}.

(** ** Console output: one constructor per [print] statement *)

Inductive output : Type :=
| Banner                               (* l.106 *)
| SummaryRule                          (* l.111, l.113, l.128 *)
| SummaryTitle                         (* l.112 *)
| SummaryOutputFile (f : string)       (* l.114 *)
| SummaryTotalCards (n : Z)            (* l.115 *)
| SummaryPages (ps : list Z)           (* l.118 *)
| SummarySampleHeader                  (* l.121 *)
| SummarySampleCard (c : Card)         (* l.123 *)
| SummaryFileSize (q : Q)              (* l.126 *)
| Initializing                         (* l.145 *)
| GeneratingSummary                    (* l.150 *)
| VerboseEnabled                       (* l.159 *)
| ResumeEnabled                        (* l.166 *)
| PlanHeader                           (* l.169 *)
| PlanStart (p : Z)                    (* l.171 *)
| PlanStartConfig (p : Z)              (* l.173 *)
| PlanEnd (p : Z)                      (* l.176 *)
| PlanEndConfig (p : Z)                (* l.180 *)
| PlanEndAuto                          (* l.182 *)
| PlanLiveSave                         (* l.184 *)
| PlanDataFolder (d : string)          (* l.185 *)
| CancelledByUser                      (* l.192, l.195 *)
| Starting                             (* l.199 *)
| Dashes                               (* l.200 *)
| ResultsRule                          (* l.205, l.207, l.215 *)
| ScrapingCompleted                    (* l.206 *)
| ResPagesScraped (n : Z)              (* l.208 *)
| ResPagesSkipped (n : Z)              (* l.209 *)
| ResCardsExtracted (n : Z)            (* l.210 *)
| ResErrors (n : Z)                    (* l.211 *)
| ResSuccessRate (q : Q)               (* l.212 *)
| ResTotalTime (q : Q)                 (* l.213 *)
| ResSpeed (q : Q)                     (* l.214 *)
| GettingFinalSummary                  (* l.219 *)
| AllDataSaved (d : string)            (* l.223 *)
| CompletedSuccessfully                (* l.224 *)
| InterruptedByUser                    (* l.227 *)
| CompletedPagesSaved                  (* l.228 *)
| UseResumeFlag                        (* l.229 *)
| ConfigurationError (msg : string)    (* l.239 *)
| ConfigHint                           (* l.240 *)
| CriticalError (msg : string)         (* l.243 *)
| CheckLogs                            (* l.244 *)
| Goodbye                              (* l.252 *)
| FatalErrorLine (msg : string).       (* l.255 *)

(** The calls that leave [main.py]. *)
Inductive call : Type :=
| CallConstructor                              (* ShoobCardScraper(), l.146 *)
| CallSummary                                  (* l.151, l.220 *)
| CallSetLevelDebug                            (* l.158 *)
| CallInput                                    (* l.190 *)
| CallScrapeAllPages (s e : option Z)          (* l.202 *)
| CallCleanupBrowser.                          (* l.234 *)

#[global] Instance call_eq_dec : EqDecision call.
Proof. solve_decision. Defined.

(** ** The scraper interface

    [S] is everything the scraper object owns or reaches (its configuration,
    the data folder, the browser).  Each method takes it and gives it back. *)
Record ScraperClass (S : Type) := mkScraperClass {
  ShoobCardScraper : S -> S * outcome Config;
  get_scraped_data_summary : S -> S * outcome Summary;
  scrape_all_pages : option Z -> option Z -> S -> S * outcome RunStatistics;
  _cleanup_browser : S -> S * outcome unit
}.
Arguments ShoobCardScraper {S} _ _.
Arguments get_scraped_data_summary {S} _ _.
Arguments scrape_all_pages {S} _ _ _ _.
Arguments _cleanup_browser {S} _ _.

(** ** The driver: [src/main.py] *)

Module Driver.

(** What a run of the script can change or show.  [scraper_bound] is the
    one fact about the local names of [main] that the code asks for:
    ['scraper' in locals()] (line 233). *)
Record World (S : Type) := mkWorld {
  scraper_state : S;
  console : list output;
  calls : list call;
  log_debug : bool;
  scraper_bound : bool
}.
Arguments mkWorld {S} _ _ _ _ _.
Arguments scraper_state {S} _.
Arguments console {S} _.
Arguments calls {S} _.
Arguments log_debug {S} _.
Arguments scraper_bound {S} _.

Definition M (S A : Type) : Type := World S -> World S * outcome A.

Definition ret {S A} (a : A) : M S A := fun w => (w, Ok a).

Definition bind {S A B} (m : M S A) (k : A -> M S B) : M S B :=
  fun w =>
    match m w with
    | (w', Ok a) => k a w'
    | (w', Raise e) => (w', Raise e)
    | (w', Diverges) => (w', Diverges)
    end.

Definition raise {S A} (e : exn) : M S A := fun w => (w, Raise e).

(** [try: m  except BaseException as e: h e] *)
Definition try_except {S A} (m : M S A) (h : exn -> M S A) : M S A :=
  fun w =>
    match m w with
    | (w', Raise e) => h e w'
    | r => r
    end.

Notation "x <- m ;; k" := (bind m (fun x => k))
  (at level 100, m at next level, right associativity).
Notation "m ;; k" := (bind m (fun _ => k))
  (at level 100, right associativity).

Definition print {S} (o : output) : M S unit :=
  fun '(mkWorld s out cs dbg bound) => (mkWorld s (out ++ [o]) cs dbg bound, Ok tt).

(** A call into the scraper: recorded, then run on the scraper's state. *)
Definition invoke {S A} (c : call) (f : S -> S * outcome A) : M S A :=
  fun '(mkWorld s out cs dbg bound) =>
    let '(s', r) := f s in (mkWorld s' out (cs ++ [c]) dbg bound, r).

(** [logging.getLogger().setLevel(logging.DEBUG)] *)
Definition setLevel_DEBUG {S} : M S unit :=
  fun '(mkWorld s out cs dbg bound) =>
    (mkWorld s out (cs ++ [CallSetLevelDebug]) true bound, Ok tt).

(** [input(prompt)]: the user's reaction is [stdin]. *)
Definition input {S} (stdin : outcome str) : M S str :=
  fun '(mkWorld s out cs dbg bound) => (mkWorld s out (cs ++ [CallInput]) dbg bound, stdin).

(** Entering [main]: no local name is bound yet. *)
Definition enter {S} : M S unit :=
  fun '(mkWorld s out cs dbg bound) => (mkWorld s out cs dbg false, Ok tt).

(** [scraper = ...], the assignment of line 146. *)
Definition assign_scraper {S} : M S unit :=
  fun '(mkWorld s out cs dbg bound) => (mkWorld s out cs dbg true, Ok tt).

(** ['scraper' in locals()] *)
Definition scraper_in_locals {S} : M S bool :=
  fun w => (w, Ok (scraper_bound w)).

Fixpoint for_each {S A} (l : list A) (body : A -> M S unit) : M S unit :=
  match l with
  | [] => ret tt
  | x :: l' => body x ;; for_each l' body
  end.

Definition when {S} (b : bool) (m : M S unit) : M S unit :=
  if b then m else ret tt.

(** [print_banner], lines 90-106. *)
Definition print_banner {S} : M S unit := print Banner.

(** [print_summary], lines 109-128. *)
Definition print_summary {S} (summary_data : Summary) : M S unit :=
  print SummaryRule ;;
  print SummaryTitle ;;
  print SummaryRule ;;
  print (SummaryOutputFile (default "N/A" (output_file summary_data))) ;;
  print (SummaryTotalCards (default 0 (total_cards summary_data))) ;;
  when (truthy (scraped_pages summary_data))
    (print (SummaryPages (sorted (default ∅ (scraped_pages summary_data))))) ;;
  when (truthy (sample_cards summary_data))
    (print SummarySampleHeader ;;
     for_each (take 3 (default [] (sample_cards summary_data)))
       (fun card => print (SummarySampleCard card))) ;;
  when (truthy (file_size_mb summary_data))
    (print (SummaryFileSize (default 0%Q (file_size_mb summary_data)))) ;;
  print SummaryRule.

Section Main.

Context {S : Type}.
Variable scraper : ScraperClass S.
Variable stdin : outcome str.

(** Lines 188-196: the confirmation.  The result says whether [main] goes on
    ([false] stands for the two [return] statements). *)
Definition confirm (args : Args) : M S bool :=
  if negb (resume args) then
    try_except
      (response <- input stdin ;;
       let response := lower (strip response) in
       if negb (str_in response [str_of "y"; str_of "yes"]) then
         print CancelledByUser ;; ret false
       else ret true)
      (fun e =>
         match e with
         | KeyboardInterrupt => print CancelledByUser ;; ret false
         | _ => raise e
         end)
  else ret true.

(** Lines 155-185: verbose logging, the resume notice and the plan. *)
Definition announce (args : Args) (cfg : Config) : M S unit :=
  when (verbose args) (setLevel_DEBUG ;; print VerboseEnabled) ;;
  let start_page_ := start args in
  let end_page_ := end_ args in
  when (resume args) (print ResumeEnabled) ;;
  print PlanHeader ;;
  (if truthy start_page_ then print (PlanStart (default 0 start_page_))
   else print (PlanStartConfig (start_page cfg))) ;;
  (if truthy end_page_ then print (PlanEnd (default 0 end_page_))
   else
     let end_config := end_page cfg in
     if truthy end_config then print (PlanEndConfig (default 0 end_config))
     else print PlanEndAuto) ;;
  print PlanLiveSave ;;
  print (PlanDataFolder (output_folder cfg)).

(** Lines 204-215: the final results. *)
Definition report (stats : RunStatistics) : M S unit :=
  print ResultsRule ;;
  print ScrapingCompleted ;;
  print ResultsRule ;;
  print (ResPagesScraped (pages_scraped stats)) ;;
  print (ResPagesSkipped (pages_skipped stats)) ;;
  print (ResCardsExtracted (cards_extracted stats)) ;;
  print (ResErrors (errors stats)) ;;
  print (ResSuccessRate (success_rate stats)) ;;
  print (ResTotalTime (elapsed_time stats)) ;;
  print (ResSpeed (cards_per_second stats)) ;;
  print ResultsRule.

(** Lines 198-224: the scraping run and what is shown after it. *)
Definition run_scraping (args : Args) (cfg : Config) : M S unit :=
  print Starting ;;
  print Dashes ;;
  stats <- invoke (CallScrapeAllPages (start args) (end_ args))
             (scrape_all_pages scraper (start args) (end_ args)) ;;
  report stats ;;
  when (0 <? cards_extracted stats)
    (print GettingFinalSummary ;;
     summary_data <- invoke CallSummary (get_scraped_data_summary scraper) ;;
     print_summary summary_data) ;;
  print (AllDataSaved (output_folder cfg)) ;;
  print CompletedSuccessfully.

(** Lines 148-224: what follows the assignment of [scraper]. *)
Definition main_body (args : Args) (cfg : Config) : M S unit :=
  if summary args then
    print GeneratingSummary ;;
    summary_data <- invoke CallSummary (get_scraped_data_summary scraper) ;;
    print_summary summary_data
  else
    announce args cfg ;;
    go <- confirm args ;;
    if go then run_scraping args cfg else ret tt.

(** Lines 144-224: the body of the [try]. *)
Definition try_body (args : Args) : M S unit :=
  print Initializing ;;
  cfg <- invoke CallConstructor (ShoobCardScraper scraper) ;;
  assign_scraper ;;
  main_body args cfg.

(** Lines 226-245: the three handlers. *)
Definition handlers (e : exn) : M S unit :=
  match e with
  | KeyboardInterrupt =>
      print InterruptedByUser ;;
      print CompletedPagesSaved ;;
      print UseResumeFlag ;;
      try_except
        (bound <- scraper_in_locals ;;
         when bound (invoke CallCleanupBrowser (_cleanup_browser scraper)))
        (fun _ => ret tt)
  | FileNotFoundError msg =>
      print (ConfigurationError msg) ;;
      print ConfigHint
  | Exception msg =>
      print (CriticalError msg) ;;
      print CheckLogs ;;
      raise e
  end.

(** [main], lines 131-245, from the parsed command line on.  The call of
    [parse_arguments] (line 133) is [argparse]'s work and is not embedded: a
    command line that it refuses, or [--help], ends the process there,
    before the banner, and is no run of what follows. *)
Definition main (args : Args) : M S unit :=
  enter ;;
  print_banner ;;
  try_except (try_body args) handlers.

(** The process exit status, [None] when the process never exits. *)
Definition exit_status := option Z.

(** Lines 248-256: [asyncio.run(main())] and its handlers.  [asyncio.run]
    is taken to run [main] to its end and to pass on what [main] returns or
    raises.  [main] lets none of its own [KeyboardInterrupt]s out, so the
    first handler is for an interrupt that [asyncio.run] raises itself (on
    a cancelled main task), which is not represented. *)
Definition script (args : Args) (w : World S) : World S * exit_status :=
  match main args w with
  | (w', Ok _) => (w', Some 0)
  | (w', Raise KeyboardInterrupt) => (fst (print Goodbye w'), Some 0)
  | (w', Raise (FileNotFoundError msg)) => (fst (print (FatalErrorLine msg) w'), Some 1)
  | (w', Raise (Exception msg)) => (fst (print (FatalErrorLine msg) w'), Some 1)
  | (w', Diverges) => (w', None)
  end.

(** *** What a run shows: the lines and calls of each block *)

(** The world in which the [try] of [main] starts. *)
Definition started (w : World S) : World S :=
  mkWorld (scraper_state w) (console w ++ [Banner]) (calls w) (log_debug w) false.

(** Whether the user's reaction at the prompt lets the run start
    (lines 190-191). *)
Definition accepted : bool :=
  match stdin with
  | Ok response => str_in (lower (strip response)) [str_of "y"; str_of "yes"]
  | _ => false
  end.

End Main.

(** The lines of [announce]. *)
Definition plan_lines (args : Args) (cfg : Config) : list output :=
  (if verbose args then [VerboseEnabled] else [])
  ++ (if resume args then [ResumeEnabled] else [])
  ++ [PlanHeader;
      if truthy (start args) then PlanStart (default 0 (start args))
      else PlanStartConfig (start_page cfg);
      if truthy (end_ args) then PlanEnd (default 0 (end_ args))
      else if truthy (end_page cfg) then PlanEndConfig (default 0 (end_page cfg))
      else PlanEndAuto;
      PlanLiveSave;
      PlanDataFolder (output_folder cfg)].

(** The call of [announce]. *)
Definition debug_call (args : Args) : list call :=
  if verbose args then [CallSetLevelDebug] else [].

(** The lines of [report]. *)
Definition report_lines (stats : RunStatistics) : list output :=
  [ResultsRule; ScrapingCompleted; ResultsRule;
   ResPagesScraped (pages_scraped stats);
   ResPagesSkipped (pages_skipped stats);
   ResCardsExtracted (cards_extracted stats);
   ResErrors (errors stats);
   ResSuccessRate (success_rate stats);
   ResTotalTime (elapsed_time stats);
   ResSpeed (cards_per_second stats);
   ResultsRule].

(** The lines of [print_summary]. *)
Definition summary_lines (d : Summary) : list output :=
  [SummaryRule; SummaryTitle; SummaryRule;
   SummaryOutputFile (default "N/A" (output_file d));
   SummaryTotalCards (default 0 (total_cards d))]
  ++ (if truthy (scraped_pages d) then [SummaryPages (sorted (default ∅ (scraped_pages d)))] else [])
  ++ (if truthy (sample_cards d)
      then SummarySampleHeader :: map SummarySampleCard (take 3 (default [] (sample_cards d)))
      else [])
  ++ (if truthy (file_size_mb d) then [SummaryFileSize (default 0%Q (file_size_mb d))] else [])
  ++ [SummaryRule].

(** The cards shown as samples among the lines of a console. *)
Definition sample_lines (l : list output) : list Card :=
  omap (fun o => match o with SummarySampleCard c => Some c | _ => None end) l.

(** A console without the line of [--verbose], a call log without the
    change of the log level. *)
Definition quiet_console (l : list output) : list output :=
  List.filter (fun o => match o with VerboseEnabled => false | _ => true end) l.

Definition quiet_calls (l : list call) : list call :=
  List.filter (fun c => match c with CallSetLevelDebug => false | _ => true end) l.

(** The same command line with [--verbose] given or not. *)
Definition with_verbose (b : bool) (args : Args) : Args :=
  mkArgs (start args) (end_ args) (resume args) (summary args) (config args) b.

(** Two worlds that differ in logging only: the log level, the line that
    announces it and the call that sets it. *)
Definition same_but_logging {S} (w1 w2 : World S) : Prop :=
  scraper_state w1 = scraper_state w2
  /\ quiet_console (console w1) = quiet_console (console w2)
  /\ quiet_calls (calls w1) = quiet_calls (calls w2)
  /\ scraper_bound w1 = scraper_bound w2.

(** A computation that moves the scraper along the relation [R]: in every
    case when [always] is set, else whenever it comes back. *)
Definition steady {S A} (always : bool) (R : S -> S -> Prop) (m : M S A) : Prop :=
  forall w, (always = false -> snd (m w) <> Diverges) ->
    R (scraper_state w) (scraper_state (fst (m w))).

(** Two computations that, from worlds differing in logging only, end alike
    in worlds differing in logging only. *)
Definition alike {S A} (m1 m2 : M S A) : Prop :=
  forall w1 w2, same_but_logging w1 w2 ->
    same_but_logging (fst (m1 w1)) (fst (m2 w2)) /\ snd (m1 w1) = snd (m2 w2).

End Driver.

(** ** The orchestrator and the incremental store *)

Module Orchestrator.

(** Modelled from the spec: the Page Fetcher boundary of section 6, missing
    with [scraper.py].  A fetch returns the cards of the page, or fails for
    this page only, or fails for good; the user may also interrupt it.  The
    no-more-data signal is the zero-card result: section 4.2 states the
    end-of-data transition on it, and section 9 says that this is all the
    source ever sees. *)
Inductive FetchResult : Type :=
| Cards (cards : list Card)
| TransientError
| FatalError (msg : string)
| UserInterrupt.

(** Modelled from the spec: the Incremental Store of section 4.1, missing
    with [scraper.py]: the accumulated card collection, each card with the
    page it came from, and the page numbers recorded as complete. *)
Record Store := mkStore {
  collection : list (PageNumber * Card);
  completed : gset Z
}.

(** Modelled from the spec: the store before anything was persisted. *)
Definition empty_store : Store := mkStore [] ∅.

(** Modelled from the spec: [has_page] of section 4.1. *)
Definition has_page (st : Store) (n : PageNumber) : bool :=
  bool_decide (n ∈ completed st).

(** Modelled from the spec: [append_page] of section 4.1, which persists
    the cards and marks the page complete. *)
Definition append_page (n : PageNumber) (cards : list Card) (st : Store) : Store :=
  mkStore (collection st ++ map (pair n) cards) ({[ n ]} ∪ completed st).

(** Modelled from the spec: the states of the orchestrator, section 4.2. *)
Inductive RunState : Type := Idle | Running | Completed | Cancelled | Failed.

(** Modelled from the spec: what surrounds a run and does not change during
    it, the configuration (section 9), the Page Fetcher and the storage
    (section 6), the clock. *)
Record Env := mkEnv {
  settings : Config;                    (* the contents of config.py *)
  config_exists : bool;                 (* whether config.py is there *)
  fetch : PageNumber -> FetchResult;    (* the Page Fetcher *)
  storage_ok : PageNumber -> bool;      (* whether the page can be persisted *)
  clock : Q;                            (* seconds a run takes *)
  sample_size : nat;                    (* bound of the sample prefix *)
  size_mb : Store -> Q;                 (* size of the persisted file *)
  patience : nat                        (* pages after which an open-ended
                                           run is given up as endless *)
}.

(** Modelled from the spec: what the scraper owns, the store and the state
    of the run (section 4.2).  The three logs are ghost state: the fetches
    made, the page numbers a transition was taken on, and the [append_page]
    calls that returned, each oldest first.  The browser session of section
    9 is not represented: where the scraper acquires and releases it is
    decided in [scraper.py], and [main] calls [_cleanup_browser] on one path
    only (lines 231-236). *)
Record State := mkState {
  store : Store;
  phase : RunState;
  fetch_log : list PageNumber;
  visit_log : list PageNumber;
  append_log : list (PageNumber * list Card)
}.

(** Modelled from the spec: a scraper on a given store before any run. *)
Definition initial (st : Store) : State := mkState st Idle [] [] [].

(** Modelled from the spec: the run enters a state of section 4.2. *)
Definition set_phase (ph : RunState) (s : State) : State :=
  mkState (store s) ph (fetch_log s) (visit_log s) (append_log s).

(** Modelled from the spec: the orchestrator turns to page [n]. *)
Definition visit (n : PageNumber) (s : State) : State :=
  mkState (store s) (phase s) (fetch_log s) (visit_log s ++ [n]) (append_log s).

(** Modelled from the spec: the Page Fetcher is invoked on page [n]. *)
Definition fetching (n : PageNumber) (s : State) : State :=
  mkState (store s) (phase s) (fetch_log s ++ [n]) (visit_log s) (append_log s).

(** Modelled from the spec: [append_page] is called and returns. *)
Definition persist (n : PageNumber) (cards : list Card) (s : State) : State :=
  mkState (append_page n cards (store s)) (phase s)
          (fetch_log s) (visit_log s) (append_log s ++ [(n, cards)]).

(** Modelled from the spec: the counters of Run Statistics (section 3),
    created at run start and changed once per page. *)
Record Counters := mkCounters {
  c_scraped : Z; c_skipped : Z; c_cards : Z; c_errors : Z
}.

(** Modelled from the spec: the counters at run start. *)
Definition zero : Counters := mkCounters 0 0 0 0.

(** Modelled from the spec: a page was skipped (section 4.2, step 1). *)
Definition skipped (c : Counters) : Counters :=
  mkCounters (c_scraped c) (c_skipped c + 1) (c_cards c) (c_errors c).

(** Modelled from the spec: a page was scraped (section 4.2, step 2). *)
Definition scraped (cards : list Card) (c : Counters) : Counters :=
  mkCounters (c_scraped c + 1) (c_skipped c) (c_cards c + Z.of_nat (length cards)) (c_errors c).

(** Modelled from the spec: a page failed (section 4.2, step 2). *)
Definition errored (c : Counters) : Counters :=
  mkCounters (c_scraped c) (c_skipped c) (c_cards c) (c_errors c + 1).

(** Modelled from the spec: the derived statistics of section 4.2, missing
    with [scraper.py].  [success_rate] is a percentage, as [main] prints it
    (line 212): the ratio [pages_scraped / (pages_scraped + errors)] of the
    spec, and 100 percent when the denominator is zero.  Throughput is zero
    when no time has elapsed. *)
Definition rate (scraped_ errors_ : Z) : Q :=
  if scraped_ + errors_ =? 0 then 100%Q
  else (100 * (inject_Z scraped_ / inject_Z (scraped_ + errors_)))%Q.

(** Modelled from the spec: [cards_per_second] of section 4.2. *)
Definition throughput (cards_ : Z) (elapsed : Q) : Q :=
  if Qeq_bool elapsed 0 then 0%Q else (inject_Z cards_ / elapsed)%Q.

(** Modelled from the spec: the Run Statistics of a terminal state. *)
Definition statistics (elapsed : Q) (c : Counters) : RunStatistics :=
  mkStats (c_scraped c) (c_skipped c) (c_cards c) (c_errors c) elapsed
          (rate (c_scraped c) (c_errors c)) (throughput (c_cards c) elapsed).

(** The pages dealt with: scraped, skipped or failed. *)
Definition handled (c : Counters) : Z := c_scraped c + c_skipped c + c_errors c.

(** Modelled from the spec: page [n] lies beyond the end page. *)
Definition past (last : option PageNumber) (n : PageNumber) : bool :=
  match last with Some e => e <? n | None => false end.

Section Run.

Variable env : Env.
Variable resume_flag : bool.

(** Modelled from the spec: the per-page transition of section 4.2, for the
    page numbers from [n] on, in ascending order.  [fuel] bounds the number
    of pages; running out of it is [Diverges].  A zero-card result ends the
    run when there is no end page, and is persisted like any other result
    when there is one (the 5/0/4 example of section 8 counts it as
    scraped). *)
Fixpoint page_loop (last : option PageNumber) (fuel : nat) (n : PageNumber)
    (c : Counters) (s : State) : State * outcome Counters :=
  match fuel with
  | O => (s, Diverges)
  | S fuel' =>
      if past last n then (s, Ok c)
      else
        let s := visit n s in
        if resume_flag && has_page (store s) n then
          page_loop last fuel' (n + 1) (skipped c) s
        else
          let s := fetching n s in
          match fetch env n with
          | Cards cards =>
              if (bool_decide (cards = []) && bool_decide (last = None))%bool then (s, Ok c)
              else if storage_ok env n then
                page_loop last fuel' (n + 1) (scraped cards c) (persist n cards s)
              else (s, Raise (Exception "StorageError"))
          | TransientError => page_loop last fuel' (n + 1) (errored c) s
          | FatalError msg => (s, Raise (Exception msg))
          | UserInterrupt => (s, Raise KeyboardInterrupt)
          end
  end.

(** Modelled from the spec: the page range.  An argument that is absent (or
    zero, which Python takes for absent, lines 170 and 175) gives way to the
    configured value; with no end page either way the range is open. *)
Definition first_page (start_arg : option Z) : PageNumber :=
  if truthy start_arg then default 0 start_arg else start_page (settings env).

(** Modelled from the spec: the end page, as [main] announces it (lines
    175-182): the argument, else the configured one, else none. *)
Definition last_page (end_arg : option Z) : option PageNumber :=
  if truthy end_arg then end_arg
  else if truthy (end_page (settings env)) then end_page (settings env)
  else None.

(** Modelled from the spec: the pages a run may take, the size of the range
    or [patience]. *)
Definition budget (first : PageNumber) (last : option PageNumber) : nat :=
  match last with
  | Some e => Z.to_nat (e - first + 1) + 1
  | None => patience env
  end.

(** Modelled from the spec: [scrape_all_pages], missing with [scraper.py].
    The run is Running while the pages are dealt with and ends Completed,
    Cancelled or Failed (section 4.2). *)
Definition scrape_all_pages (start_arg end_arg : option Z) (s : State)
    : State * outcome RunStatistics :=
  let first := first_page start_arg in
  let last := last_page end_arg in
  match page_loop last (budget first last) first zero (set_phase Running s) with
  | (s', Ok c) => (set_phase Completed s', Ok (statistics (clock env) c))
  | (s', Raise KeyboardInterrupt) => (set_phase Cancelled s', Raise KeyboardInterrupt)
  | (s', Raise e) => (set_phase Failed s', Raise e)
  | (s', Diverges) => (s', Diverges)
  end.

(** Modelled from the spec: [summarize] of section 4.1
    ([get_scraped_data_summary]), missing with [scraper.py].  It reads the
    store and changes nothing. *)
Definition summarize (st : Store) : Summary :=
  mkSummary (Some (output_folder (settings env)))
            (Some (Z.of_nat (length (collection st))))
            (Some (completed st))
            (Some (take (sample_size env) (map snd (collection st))))
            (Some (size_mb env st)).

(** Modelled from the spec: [get_scraped_data_summary], the method that
    [main] calls for [summarize]. *)
Definition get_scraped_data_summary (s : State) : State * outcome Summary :=
  (s, Ok (summarize (store s))).

(** Modelled from the spec: the constructor, missing with [scraper.py].
    Without [config.py] it raises [FileNotFoundError] (section 7,
    FatalConfigurationError). *)
Definition ShoobCardScraper (s : State) : State * outcome Config :=
  if config_exists env then (s, Ok (settings env))
  else (s, Raise (FileNotFoundError "config.py")).

(** Modelled from the spec: [_cleanup_browser] releases the browser session
    and touches nothing that is persisted (section 4.2, step 3: no rollback
    is needed). *)
Definition _cleanup_browser (s : State) : State * outcome unit :=
  (s, Ok tt).

(** Modelled from the spec: the scraper object with its four methods. *)
Definition scraper : ScraperClass State :=
  mkScraperClass State ShoobCardScraper get_scraped_data_summary
                 scrape_all_pages _cleanup_browser.

End Run.

(** Modelled from the spec: the whole program, the script of [main.py] on
    the scraper above.  Section 4.2 makes the resume flag an input of the
    orchestrator.  [main] hands the scraper no such flag: the constructor
    takes no argument (line 146) and [scrape_all_pages] the two page bounds
    only (line 202).  So the flag of the orchestrator is a parameter of its
    own here, [resume_flag], and not the [--resume] of the command line. *)
Definition program (env : Env) (resume_flag : bool) (stdin : outcome str) (args : Args)
    (s : State) : Driver.World State * Driver.exit_status :=
  Driver.script (scraper env resume_flag) stdin args (Driver.mkWorld s [] [] false false).

(** *** What a run may do to the scraper *)

(** The fetches made between two states. *)
Definition new_fetches (s s' : State) : list PageNumber :=
  drop (length (fetch_log s)) (fetch_log s').

(** From [s] to [s'] the store has only grown and no page that [s] had
    recorded was fetched. *)
Definition refetches_nothing (s s' : State) : Prop :=
  completed (store s) ⊆ completed (store s')
  /\ exists fl, fetch_log s' = fetch_log s ++ fl
       /\ forall p, p ∈ fl -> p ∉ completed (store s).

(** From [s] to [s'] nothing persisted was lost: the store has only grown,
    and the pages and cards of every [append_page] that returned are in
    it. *)
Definition keeps_work (s s' : State) : Prop :=
  completed (store s) ⊆ completed (store s')
  /\ (exists added, collection (store s') = collection (store s) ++ added)
  /\ exists al, append_log s' = append_log s ++ al
       /\ forall p cards, (p, cards) ∈ al ->
            has_page (store s') p = true
            /\ forall card, card ∈ cards -> (p, card) ∈ collection (store s').

(** Page [p] does not stop a run on the store [st]: it is skipped, or its
    fetch fails for this page only, or its cards are fetched and persisted.
    A zero-card result is among these only when the run has an end page. *)
Definition goes_on (env : Env) (resume_flag : bool) (last : option PageNumber)
    (st : Store) (p : PageNumber) : Prop :=
  resume_flag && has_page st p = true
  \/ fetch env p = TransientError
  \/ exists cards, fetch env p = Cards cards
       /\ (cards <> [] \/ last <> None) /\ storage_ok env p = true.

(** *** The examples of section 8 and further sample runs *)

Definition a_card : Card := mkCard "Rem" "S" "Re:Zero".

Definition sample_config : Config := mkConfig 1 None "data".

(** A surrounding with the given Page Fetcher, in which [config.py] exists
    and every page can be persisted. *)
Definition sample_env (fetcher : PageNumber -> FetchResult) : Env :=
  mkEnv sample_config true fetcher (fun _ => true) 2%Q 3%nat (fun _ => 0%Q) 50%nat.

(** Pages 1, 2 and 3 hold 5, 0 and 4 cards. *)
Definition fetch_5_0_4 (n : PageNumber) : FetchResult :=
  if n =? 1 then Cards (replicate 5 a_card)
  else if n =? 3 then Cards (replicate 4 a_card)
  else Cards [].

(** Pages 1 and 2 hold a card, from page 3 on there is nothing. *)
Definition fetch_two_pages (n : PageNumber) : FetchResult :=
  if n <=? 2 then Cards [a_card] else Cards [].

(** The user interrupts the fetch of page 3. *)
Definition fetch_interrupted_at_3 (n : PageNumber) : FetchResult :=
  if n =? 3 then UserInterrupt else Cards [a_card].

Definition no_flags : Args := mkArgs None None false false None false.

Definition summary_only : Args := mkArgs None None false true None false.

Definition resume_1_to_3 : Args := mkArgs (Some 1) (Some 3) true false None false.

(** A surrounding without [config.py]. *)
Definition env_without_config : Env :=
  mkEnv sample_config false fetch_two_pages (fun _ => true) 2%Q 3%nat (fun _ => 0%Q) 50%nat.

(** A scraper whose store has page 1 already. *)
Definition resumed_start : State :=
  initial (append_page 1 (replicate 5 a_card) empty_store).

End Orchestrator.

(** * Observing a run of the driver *)

Module Observe.

Import Driver.

(** The lines printed and the calls made between two worlds. *)
Definition new_lines {S} (w w' : World S) : list output :=
  drop (length (console w)) (console w').

Definition new_calls {S} (w w' : World S) : list call :=
  drop (length (calls w)) (calls w').

(** A world after some more lines. *)
Definition say {S} (l : list output) (w : World S) : World S :=
  mkWorld (scraper_state w) (console w ++ l) (calls w) (log_debug w) (scraper_bound w).

(** The world in which the confirmation of [main] starts: the scraper is
    built and bound, the plan is shown. *)
Definition ready {S} (w : World S) (s1 : S) (args : Args) (cfg : Config) : World S :=
  mkWorld s1 (console w ++ [Banner; Initializing] ++ plan_lines args cfg)
          (calls w ++ [CallConstructor] ++ debug_call args)
          (log_debug w || verbose args) true.

(** The world in which the scraping of [main] starts: the scraper is built
    and bound, the plan is shown, the prompt was asked unless [--resume]. *)
Definition confirmed {S} (w : World S) (s1 : S) (args : Args) (cfg : Config) : World S :=
  mkWorld s1 (console w ++ [Banner; Initializing] ++ plan_lines args cfg)
          (calls w ++ [CallConstructor] ++ debug_call args
           ++ (if resume args then [] else [CallInput]))
          (log_debug w || verbose args) true.

(** The same command line with another value for [--start] or [--end]. *)
Definition with_start (a : option Z) (args : Args) : Args :=
  mkArgs a (end_ args) (resume args) (summary args) (config args) (verbose args).

Definition with_end (b : option Z) (args : Args) : Args :=
  mkArgs (start args) b (resume args) (summary args) (config args) (verbose args).

(** The same command line with [--resume] given or not. *)
Definition with_resume (b : bool) (args : Args) : Args :=
  mkArgs (start args) (end_ args) b (summary args) (config args) (verbose args).

(** The three lines of the interruption notice (lines 227-229). *)
Definition notice : list output :=
  [InterruptedByUser; CompletedPagesSaved; UseResumeFlag].

(** Text that consists of whitespace only. *)
Fixpoint blank (s : str) : bool :=
  match s with
  | c :: s' => is_space c && blank s'
  | [] => true
  end.

(** What [main] may call after [scrape_all_pages]. *)
Definition after_scraping : list (list call) :=
  [[]; [CallSummary]; [CallCleanupBrowser]; [CallSummary; CallCleanupBrowser]].

(** The sequences of calls that a run of the script can make. *)
Definition protocol (args : Args) (cs : list call) : Prop :=
  cs = [CallConstructor]
  \/ (summary args = true
      /\ (cs = [CallConstructor; CallSummary]
          \/ cs = [CallConstructor; CallSummary; CallCleanupBrowser]))
  \/ (summary args = false /\ resume args = false
      /\ cs = [CallConstructor] ++ debug_call args ++ [CallInput])
  \/ (summary args = false
      /\ exists rest, rest ∈ after_scraping
           /\ cs = [CallConstructor] ++ debug_call args
                   ++ (if resume args then [] else [CallInput])
                   ++ [CallScrapeAllPages (start args) (end_ args)] ++ rest).

(** A scraper for trying the driver: each method answers as scripted, and
    the state counts the calls. *)
Definition scripted (built : outcome Config) (summarised : outcome Summary)
    (scraped : outcome RunStatistics) (cleaned : outcome unit) : ScraperClass nat :=
  mkScraperClass nat
    (fun n => (S n, built))
    (fun n => (S n, summarised))
    (fun _ _ n => (S n, scraped))
    (fun n => (S n, cleaned)).

Definition some_config : Config := mkConfig 1 (Some 5) "cards".

Definition some_stats (cards : Z) : RunStatistics :=
  mkStats 2 0 cards 0 3%Q 100%Q 1%Q.

Definition some_summary : Summary :=
  mkSummary (Some "cards/cards.json") (Some 2) (Some {[ 2; 1 ]})
            (Some [mkCard "a" "1" "x"; mkCard "b" "2" "x"; mkCard "c" "3" "x";
                   mkCard "d" "4" "x"])
            (Some 1%Q).

Definition fresh : World nat := mkWorld O [] [] false false.

(** A scraper that holds its browser session from the start of the scraping
    until [_cleanup_browser] is called; the state says whether the session
    is open.  Its scraping ends as [ending] says. *)
Definition holding (ending : outcome RunStatistics) : ScraperClass bool :=
  mkScraperClass bool
    (fun session => (session, Ok some_config))
    (fun session => (session, Ok some_summary))
    (fun _ _ _ => (true, ending))
    (fun _ => (false, Ok tt)).

End Observe.

(** * Properties of the driver *)

Module DriverFacts.

Import Driver.

(** Symbolic execution of the driver monad. *)
Ltac unfold_driver :=
  unfold script, main, try_body, main_body, announce, report, run_scraping,
         confirm, handlers, print_banner, when, try_except, bind, ret, raise, print, invoke, input,
         setLevel_DEBUG, enter, assign_scraper, scraper_in_locals in *.

Ltac flatten := repeat rewrite <- app_assoc; cbn [app].

Ltac not_listed :=
  rewrite ?not_elem_of_cons; repeat split; try discriminate; apply not_elem_of_nil.

#[local] Arguments print_summary : simpl never.
#[local] Arguments str_in : simpl never.

Lemma for_each_print {S} (l : list Card) (w : World S) :
  for_each l (fun card => print (SummarySampleCard card)) w =
  (mkWorld (scraper_state w) (console w ++ map SummarySampleCard l) (calls w)
           (log_debug w) (scraper_bound w), Ok tt).
Proof.
  revert w. induction l as [|c l IH]; intros [s co ca d b]; cbn.
  - unfold ret. cbn. by rewrite app_nil_r.
  - unfold bind, print. cbn. rewrite IH. cbn. by rewrite <- app_assoc.
Qed.

Lemma print_summary_lines {S} (d : Summary) (w : World S) :
  print_summary d w =
  (mkWorld (scraper_state w) (console w ++ summary_lines d) (calls w)
           (log_debug w) (scraper_bound w), Ok tt).
Proof.
  destruct w as [s co ca dbg bd].
  pose proof (@for_each_print S (take 3 (default [] (sample_cards d)))) as Hfor.
  unfold print_summary, summary_lines, when, bind, print, ret in *. cbn.
  destruct (truthy (scraped_pages d)); cbn;
  destruct (truthy (sample_cards d)); cbn;
  rewrite ?Hfor; cbn;
  destruct (truthy (file_size_mb d)); cbn;
  flatten; reflexivity.
Qed.

Lemma announce_run {S} (args : Args) (cfg : Config) (w : World S) :
  announce args cfg w =
  (mkWorld (scraper_state w) (console w ++ plan_lines args cfg)
           (calls w ++ debug_call args) (log_debug w || verbose args)
           (scraper_bound w), Ok tt).
Proof.
  destruct w as [s co ca dbg bd].
  unfold announce, plan_lines, debug_call.
  generalize (truthy (start args)) (truthy (end_ args)) (truthy (end_page cfg)).
  intros b1 b2 b3.
  destruct (verbose args), (resume args), b1, b2, b3;
    unfold when, bind, ret, print, setLevel_DEBUG; cbn;
    rewrite ?orb_false_r, ?orb_true_r, ?app_nil_r; flatten; reflexivity.
Qed.

Lemma report_run {S} (stats : RunStatistics) (w : World S) :
  report stats w =
  (mkWorld (scraper_state w) (console w ++ report_lines stats) (calls w)
           (log_debug w) (scraper_bound w), Ok tt).
Proof.
  destruct w as [s co ca dbg bd].
  unfold report, report_lines, bind, print. cbn. flatten. reflexivity.
Qed.

Lemma confirm_run {S} (stdin : outcome str) (args : Args) (w : World S) :
  confirm stdin args w =
  if resume args then (w, Ok true)
  else
    let asked := mkWorld (scraper_state w) (console w) (calls w ++ [CallInput])
                         (log_debug w) (scraper_bound w) in
    let declined := mkWorld (scraper_state w) (console w ++ [CancelledByUser])
                            (calls w ++ [CallInput]) (log_debug w) (scraper_bound w) in
    match stdin with
    | Ok _ => if accepted stdin then (asked, Ok true) else (declined, Ok false)
    | Raise KeyboardInterrupt => (declined, Ok false)
    | Raise e => (asked, Raise e)
    | Diverges => (asked, Diverges)
    end.
Proof.
  destruct w as [s co ca dbg bd].
  unfold confirm, accepted, try_except, bind, ret, raise, print, input.
  destruct (resume args); cbn; [reflexivity|].
  destruct stdin as [r|[| |]|]; cbn; try reflexivity.
  destruct (str_in (lower (strip r)) [str_of "y"; str_of "yes"]); reflexivity.
Qed.

#[local] Arguments announce : simpl never.
#[local] Arguments report : simpl never.
#[local] Arguments confirm : simpl never.

Ltac drive :=
  unfold script, main, try_body, main_body, run_scraping, handlers, try_except,
         bind, ret, raise, print, invoke, when, enter, assign_scraper,
         scraper_in_locals, print_banner;
  cbn.

Lemma plan_lines_no_resume_hint (args : Args) (cfg : Config) :
  UseResumeFlag ∉ [Banner; Initializing] ++ plan_lines args cfg ++ [CancelledByUser].
Proof.
  unfold plan_lines.
  destruct (verbose args), (resume args), (truthy (start args)),
    (truthy (end_ args)), (truthy (end_page cfg)); cbn;
    rewrite ?not_elem_of_cons; repeat split; try discriminate;
    apply not_elem_of_nil.
Qed.

#[local] Arguments try_body : simpl never.

(** *** Relational reasoning: computations that do not look at the logging *)

Section Alike.

Context {S : Type}.

Lemma alike_ret {A} (a : A) : alike (@ret S A a) (ret a).
Proof. intros w1 w2 H. split; [exact H | reflexivity]. Qed.

Lemma alike_raise {A} (e : exn) : alike (@raise S A e) (raise e).
Proof. intros w1 w2 H. split; [exact H | reflexivity]. Qed.

Lemma alike_bind {A B} (m1 m2 : M S A) (k1 k2 : A -> M S B) :
  alike m1 m2 -> (forall a, alike (k1 a) (k2 a)) -> alike (bind m1 k1) (bind m2 k2).
Proof.
  intros Hm Hk w1 w2 H. unfold bind.
  destruct (Hm w1 w2 H) as [Hw Hr].
  destruct (m1 w1) as [w1' r1], (m2 w2) as [w2' r2]. cbn in Hw, Hr. subst r2.
  destruct r1 as [a|e|]; [apply Hk; exact Hw | | ]; split; [exact Hw | reflexivity | exact Hw | reflexivity].
Qed.

Lemma alike_try_except {A} (m1 m2 : M S A) (h1 h2 : exn -> M S A) :
  alike m1 m2 -> (forall e, alike (h1 e) (h2 e)) ->
  alike (try_except m1 h1) (try_except m2 h2).
Proof.
  intros Hm Hh w1 w2 H. unfold try_except.
  destruct (Hm w1 w2 H) as [Hw Hr].
  destruct (m1 w1) as [w1' r1], (m2 w2) as [w2' r2]. cbn in Hw, Hr. subst r2.
  destruct r1 as [a|e|]; [ | apply Hh; exact Hw | ]; split; [exact Hw | reflexivity | exact Hw | reflexivity].
Qed.

Lemma alike_print (o : output) : alike (@print S o) (print o).
Proof.
  intros [s1 o1 c1 d1 b1] [s2 o2 c2 d2 b2] (Hs & Ho & Hc & Hb). cbn in *.
  split; [|reflexivity]. repeat split; cbn; try assumption.
  unfold quiet_console in *. rewrite !List.filter_app, Ho. reflexivity.
Qed.

Lemma alike_invoke {A} (c : call) (f : S -> S * outcome A) :
  alike (invoke c f) (invoke c f).
Proof.
  intros [s1 o1 c1 d1 b1] [s2 o2 c2 d2 b2] (Hs & Ho & Hc & Hb). cbn in *. subst s2.
  destruct (f s1) as [s' r]. cbn. split; [|reflexivity]. repeat split; cbn; try assumption.
  unfold quiet_calls in *. rewrite !List.filter_app, Hc. reflexivity.
Qed.

Lemma alike_input (stdin : outcome str) : alike (@input S stdin) (input stdin).
Proof.
  intros [s1 o1 c1 d1 b1] [s2 o2 c2 d2 b2] (Hs & Ho & Hc & Hb). cbn in *.
  split; [|reflexivity]. repeat split; cbn; try assumption.
  unfold quiet_calls in *. rewrite !List.filter_app, Hc. reflexivity.
Qed.

Lemma alike_enter : alike (@enter S) enter.
Proof.
  intros [s1 o1 c1 d1 b1] [s2 o2 c2 d2 b2] (Hs & Ho & Hc & Hb). cbn in *.
  split; [|reflexivity]. repeat split; assumption.
Qed.

Lemma alike_assign_scraper : alike (@assign_scraper S) assign_scraper.
Proof.
  intros [s1 o1 c1 d1 b1] [s2 o2 c2 d2 b2] (Hs & Ho & Hc & Hb). cbn in *.
  split; [|reflexivity]. repeat split; assumption.
Qed.

Lemma alike_scraper_in_locals : alike (@scraper_in_locals S) scraper_in_locals.
Proof.
  intros w1 w2 H. unfold scraper_in_locals. cbn. split; [exact H|].
  destruct H as (_ & _ & _ & Hb). by rewrite Hb.
Qed.

Lemma alike_when (b : bool) (m1 m2 : M S unit) :
  alike m1 m2 -> alike (when b m1) (when b m2).
Proof. intros Hm. destruct b; [exact Hm | apply alike_ret]. Qed.

Lemma alike_for_each {A} (l : list A) (body : A -> M S unit) :
  (forall x, alike (body x) (body x)) -> alike (for_each l body) (for_each l body).
Proof.
  intros Hbody. induction l as [|x l IH]; cbn.
  - apply alike_ret.
  - apply alike_bind; [apply Hbody | intros _; exact IH].
Qed.

(** The one place where [--verbose] acts: it only touches the logging. *)
Lemma alike_set_level :
  alike (setLevel_DEBUG ;; print VerboseEnabled) (@ret S unit tt).
Proof.
  intros [s1 o1 c1 d1 b1] [s2 o2 c2 d2 b2] (Hs & Ho & Hc & Hb). cbn in *.
  split; [|reflexivity]. repeat split; cbn; try assumption.
  - unfold quiet_console in *. rewrite List.filter_app. cbn. by rewrite app_nil_r.
  - unfold quiet_calls in *. rewrite List.filter_app. cbn. by rewrite app_nil_r.
Qed.

End Alike.

Ltac alike_step :=
  first
    [ apply alike_set_level
    | apply alike_ret | apply alike_raise | apply alike_print
    | apply alike_invoke | apply alike_input | apply alike_enter
    | apply alike_assign_scraper | apply alike_scraper_in_locals
    | apply alike_for_each | apply alike_when
    | apply alike_bind | apply alike_try_except
    | match goal with
      | |- forall _, alike _ _ => intro
      | |- alike (if ?b then _ else _) _ => destruct b
      | |- alike (match ?e with _ => _ end) _ => destruct e
      end ].

(** *** The script changes the scraper through its methods only *)

Section Steady.

Context {S : Type} (always : bool) (R : S -> S -> Prop) `{!PreOrder R}.

Lemma steady_ret {A} (a : A) : steady always R (@ret S A a).
Proof. intros w _. reflexivity. Qed.

Lemma steady_raise {A} (e : exn) : steady always R (@raise S A e).
Proof. intros w _. reflexivity. Qed.

Lemma steady_bind {A B} (m : M S A) (k : A -> M S B) :
  steady always R m -> (forall a, steady always R (k a)) -> steady always R (bind m k).
Proof.
  intros Hm Hk w. unfold bind. specialize (Hm w).
  destruct (m w) as [w1 [a|e|]]; cbn [fst snd] in *.
  - intros Hret. etransitivity; [apply Hm; discriminate | by apply Hk].
  - intros _. apply Hm. discriminate.
  - intros Hret. apply Hm. intros Hal _. by apply (Hret Hal).
Qed.

Lemma steady_try_except {A} (m : M S A) (h : exn -> M S A) :
  steady always R m -> (forall e, steady always R (h e)) ->
  steady always R (try_except m h).
Proof.
  intros Hm Hh w. unfold try_except. specialize (Hm w).
  destruct (m w) as [w1 [a|e|]]; cbn [fst snd] in *.
  - intros _. apply Hm. discriminate.
  - intros Hret. etransitivity; [apply Hm; discriminate | by apply Hh].
  - intros Hret. apply Hm. intros Hal _. by apply (Hret Hal).
Qed.

Lemma steady_print (o : output) : steady always R (@print S o).
Proof. intros [s co ca dbg bd] _. cbn. reflexivity. Qed.

Lemma steady_input (stdin : outcome str) : steady always R (@input S stdin).
Proof. intros [s co ca dbg bd] _. cbn. reflexivity. Qed.

Lemma steady_setLevel : steady always R (@setLevel_DEBUG S).
Proof. intros [s co ca dbg bd] _. cbn. reflexivity. Qed.

Lemma steady_enter : steady always R (@enter S).
Proof. intros [s co ca dbg bd] _. cbn. reflexivity. Qed.

Lemma steady_assign_scraper : steady always R (@assign_scraper S).
Proof. intros [s co ca dbg bd] _. cbn. reflexivity. Qed.

Lemma steady_scraper_in_locals : steady always R (@scraper_in_locals S).
Proof. intros w _. cbn. reflexivity. Qed.

Lemma steady_invoke {A} (c : call) (f : S -> S * outcome A) :
  (forall s, (always = false -> snd (f s) <> Diverges) -> R s (fst (f s))) ->
  steady always R (invoke c f).
Proof.
  intros Hf [s co ca dbg bd]. cbn. specialize (Hf s).
  destruct (f s) as [s' r]. cbn in *. exact Hf.
Qed.

Lemma steady_when (b : bool) (m : M S unit) :
  steady always R m -> steady always R (when b m).
Proof. intros Hm. destruct b; [exact Hm | apply steady_ret]. Qed.

Lemma steady_for_each {A} (l : list A) (body : A -> M S unit) :
  (forall x, steady always R (body x)) -> steady always R (for_each l body).
Proof.
  intros Hbody. induction l as [|x l IH]; cbn.
  - apply steady_ret.
  - apply steady_bind; [apply Hbody | intros _; exact IH].
Qed.

End Steady.

Ltac steady_step :=
  first
    [ apply steady_ret | apply steady_raise | apply steady_print
    | apply steady_input | apply steady_setLevel | apply steady_enter
    | apply steady_assign_scraper | apply steady_scraper_in_locals
    | apply steady_for_each | apply steady_when
    | apply steady_bind | apply steady_try_except
    | match goal with
      | |- forall _, steady _ _ _ => intro
      | |- steady _ _ (if ?b then _ else _) => destruct b
      | |- steady _ _ (match ?e with _ => _ end) => destruct e
      end ].

Section Generic.

Context {S : Type}.
Variable sc : ScraperClass S.
Variable stdin : outcome str.

(** C8. When the constructor raises [FileNotFoundError] the script prints
    the configuration error with its cause and the hint right after the
    initialisation line, makes no other call into the scraper (no summary,
    no scraping, no cleanup), leaves the scraper as the constructor left it,
    and ends. *)
Theorem missing_configuration_stops_the_run (args : Args) (w : World S) s1 msg :
  ShoobCardScraper sc (scraper_state w) = (s1, Raise (FileNotFoundError msg)) ->
  script sc stdin args w =
    (mkWorld s1
       (console w ++ [Banner; Initializing; ConfigurationError msg; ConfigHint])
       (calls w ++ [CallConstructor]) (log_debug w) false,
     Some 0).
Proof.
  intros Hctor. destruct w as [s co ca dbg bd]. unfold_driver. cbn in *.
  rewrite Hctor. cbn. flatten. reflexivity.
Qed.

Lemma sample_lines_app (l1 l2 : list output) :
  sample_lines (l1 ++ l2) = sample_lines l1 ++ sample_lines l2.
Proof. apply omap_app. Qed.

Lemma sample_lines_map (l : list Card) :
  sample_lines (map SummarySampleCard l) = l.
Proof. induction l as [|c l IH]; cbn; [done | f_equal; exact IH]. Qed.

Lemma sample_lines_summary (d : Summary) :
  sample_lines (summary_lines d) = take 3 (default [] (sample_cards d)).
Proof.
  unfold summary_lines. rewrite !sample_lines_app.
  destruct (truthy (scraped_pages d)); cbn;
  destruct (truthy (file_size_mb d)); cbn;
  (destruct (sample_cards d) as [[|c l]|]; cbn; [done | | done]);
  rewrite app_nil_r; f_equal; apply (sample_lines_map (take 2 l)).
Qed.

(** C2. With [--summary] the script builds the scraper, asks it for the
    summary, prints it and ends with status 0: its only calls are the
    constructor and [get_scraped_data_summary], never [scrape_all_pages].
    Of the sample cards exactly the first three are shown, so at most three.
    On the empty store of the orchestrator the summary shows zero cards, no
    line of scraped pages and no sample card, and neither the store nor the
    fetch log changes. *)
Theorem summary_flag_prints_and_exits (args : Args) (w : World S) s1 cfg s2 d :
  summary args = true ->
  ShoobCardScraper sc (scraper_state w) = (s1, Ok cfg) ->
  get_scraped_data_summary sc s1 = (s2, Ok d) ->
  script sc stdin args w =
    (mkWorld s2
       (console w ++ [Banner; Initializing; GeneratingSummary] ++ summary_lines d)
       (calls w ++ [CallConstructor; CallSummary]) (log_debug w) true,
     Some 0)
  /\ sample_lines (summary_lines d) = take 3 (default [] (sample_cards d))
  /\ (length (sample_lines (summary_lines d)) <= 3)%nat
  /\ forall (env : Orchestrator.Env) (resume_flag : bool),
       Orchestrator.config_exists env = true ->
       Orchestrator.program env resume_flag stdin args
         (Orchestrator.initial Orchestrator.empty_store) =
         (mkWorld (Orchestrator.initial Orchestrator.empty_store)
            ([Banner; Initializing; GeneratingSummary;
              SummaryRule; SummaryTitle; SummaryRule;
              SummaryOutputFile (output_folder (Orchestrator.settings env));
              SummaryTotalCards 0]
             ++ (if truthy (Orchestrator.size_mb env Orchestrator.empty_store)
                 then [SummaryFileSize (Orchestrator.size_mb env Orchestrator.empty_store)]
                 else [])
             ++ [SummaryRule])
            [CallConstructor; CallSummary] false true,
          Some 0).
Proof.
  intros Hsum Hctor Hget. repeat split.
  - destruct w as [s co ca dbg bd]. unfold_driver. cbn in *.
    rewrite Hctor. cbn. rewrite Hsum. cbn. rewrite Hget. cbn.
    rewrite print_summary_lines. cbn. flatten. reflexivity.
  - apply sample_lines_summary.
  - rewrite sample_lines_summary, length_take. lia.
  - intros env flag Hcfg. unfold Orchestrator.program. unfold_driver. cbn.
    unfold Orchestrator.ShoobCardScraper. rewrite Hcfg. cbn. rewrite Hsum. cbn.
    rewrite print_summary_lines. cbn. unfold summary_lines. cbn.
    rewrite take_nil. cbn.
    unfold truthy at 1, truthy_optional.
    destruct (truthy (Orchestrator.size_mb env Orchestrator.empty_store)); reflexivity.
Qed.

(** C10. A run without [--summary] whose scraper was built: without
    [--resume] the prompt is asked before anything else is done with the
    scraper; unless the stripped, lower-cased answer is [y] or [yes] the
    script calls nothing after the prompt and leaves the scraper as the
    constructor left it (no fetch, no write), printing the cancellation and
    ending with status 0 when the user answered or interrupted; when the
    answer is accepted the scraping call comes right after the prompt.  With
    [--resume] the prompt is never asked and the scraping call follows the
    plan directly. *)
Theorem confirmation_before_scraping (args : Args) (w : World S) s1 cfg :
  summary args = false ->
  ShoobCardScraper sc (scraper_state w) = (s1, Ok cfg) ->
  let w' := fst (script sc stdin args w) in
  let status := snd (script sc stdin args w) in
  (resume args = false -> accepted stdin = false ->
     scraper_state w' = s1
     /\ calls w' = calls w ++ [CallConstructor] ++ debug_call args ++ [CallInput]
     /\ ((exists response, stdin = Ok response) \/ stdin = Raise KeyboardInterrupt ->
         status = Some 0
         /\ console w' = console w ++ [Banner; Initializing] ++ plan_lines args cfg
                          ++ [CancelledByUser]))
  /\ (resume args = false -> accepted stdin = true ->
      exists rest,
        calls w' = calls w ++ [CallConstructor] ++ debug_call args
                   ++ [CallInput; CallScrapeAllPages (start args) (end_ args)] ++ rest)
  /\ (resume args = true ->
      exists rest,
        calls w' = calls w ++ [CallConstructor] ++ debug_call args
                   ++ [CallScrapeAllPages (start args) (end_ args)] ++ rest
        /\ CallInput ∉ rest).
Proof.
  intros Hsum Hctor. destruct w as [s co ca dbg bd]. cbn in Hctor.
  cbn zeta. drive. rewrite Hctor. cbn. rewrite Hsum.
  rewrite announce_run. cbn. rewrite confirm_run. cbn.
  split; [|split].
  - intros Hres Hacc. rewrite Hres.
    destruct stdin as [r|[| |]|]; cbn in *; rewrite ?Hacc; cbn;
      (split; [reflexivity|]); (split; [flatten; reflexivity|]);
      try (intros _; split; [reflexivity | flatten; reflexivity]);
      intros [[r' Hr]|Hr]; discriminate Hr.
  - intros Hres Hacc. rewrite Hres.
    destruct stdin as [r|[| |]|]; cbn in *; try discriminate Hacc.
    rewrite Hacc.
    destruct (scrape_all_pages sc (start args) (end_ args) s1) as [s2 [stats|[| |]|]];
      cbn; rewrite ?report_run; cbn.
    + destruct (0 <? cards_extracted stats); cbn.
      * destruct (get_scraped_data_summary sc s2) as [s3 [d|[| |]|]]; cbn;
          rewrite ?print_summary_lines; cbn.
        -- exists [CallSummary]. flatten. reflexivity.
        -- destruct (_cleanup_browser sc s3) as [s4 [[]|e|]]; cbn;
             exists [CallSummary; CallCleanupBrowser]; flatten; reflexivity.
        -- exists [CallSummary]. flatten. reflexivity.
        -- exists [CallSummary]. flatten. reflexivity.
        -- exists [CallSummary]. flatten. reflexivity.
      * exists []. flatten. reflexivity.
    + destruct (_cleanup_browser sc s2) as [s4 [[]|e|]]; cbn;
        exists [CallCleanupBrowser]; flatten; reflexivity.
    + exists []. flatten. reflexivity.
    + exists []. flatten. reflexivity.
    + exists []. flatten. reflexivity.
  - intros Hres. rewrite Hres.
    destruct (scrape_all_pages sc (start args) (end_ args) s1) as [s2 [stats|[| |]|]];
      cbn; rewrite ?report_run; cbn.
    + destruct (0 <? cards_extracted stats); cbn.
      * destruct (get_scraped_data_summary sc s2) as [s3 [d|[| |]|]]; cbn;
          rewrite ?print_summary_lines; cbn.
        -- exists [CallSummary]. split; [flatten; reflexivity | not_listed].
        -- destruct (_cleanup_browser sc s3) as [s4 [[]|e|]]; cbn;
             exists [CallSummary; CallCleanupBrowser];
             (split; [flatten; reflexivity | not_listed]).
        -- exists [CallSummary]. split; [flatten; reflexivity | not_listed].
        -- exists [CallSummary]. split; [flatten; reflexivity | not_listed].
        -- exists [CallSummary]. split; [flatten; reflexivity | not_listed].
      * exists []. split; [flatten; reflexivity | not_listed].
    + destruct (_cleanup_browser sc s2) as [s4 [[]|e|]]; cbn;
        exists [CallCleanupBrowser]; (split; [flatten; reflexivity | not_listed]).
    + exists []. split; [flatten; reflexivity | not_listed].
    + exists []. split; [flatten; reflexivity | not_listed].
    + exists []. split; [flatten; reflexivity | not_listed].
Qed.

Lemma interrupt_at_the_prompt (args : Args) (w : World S) s1 cfg :
  summary args = false -> resume args = false ->
  stdin = Raise KeyboardInterrupt ->
  ShoobCardScraper sc (scraper_state w) = (s1, Ok cfg) ->
  try_body sc stdin args (started w) =
    (mkWorld s1
       (console w ++ [Banner; Initializing] ++ plan_lines args cfg ++ [CancelledByUser])
       (calls w ++ [CallConstructor] ++ debug_call args ++ [CallInput])
       (log_debug w || verbose args) true,
     Ok tt).
Proof.
  intros Hsum Hres Hin Hctor. destruct w as [s co ca dbg bd]. cbn in Hctor.
  unfold started. drive. rewrite Hctor. cbn. rewrite Hsum.
  rewrite announce_run. cbn. rewrite confirm_run. cbn. rewrite Hres, Hin. cbn.
  flatten. reflexivity.
Qed.

(** C3, as the code has it.  The exit status follows from how the [try]
    block of [main] ends.  When it returns, the status is 0.  When a
    [KeyboardInterrupt] comes out of it, the three lines of the interruption
    notice, the last one pointing to [--resume], are printed, and the status
    is 0 once the cleanup returns.  When an exception other than
    [KeyboardInterrupt] and [FileNotFoundError] comes out of it, the status
    is 1, after the cause was printed.  A [KeyboardInterrupt] at the
    confirmation prompt does not come out of the block: the run prints that
    scraping was cancelled and ends with status 0, and the pointer to
    [--resume] is not printed. *)
Theorem exit_status_by_outcome (args : Args) (w : World S) w1 r :
  try_body sc stdin args (started w) = (w1, r) ->
  let w' := fst (script sc stdin args w) in
  let status := snd (script sc stdin args w) in
  match r with
  | Ok _ => w' = w1 /\ status = Some 0
  | Raise KeyboardInterrupt =>
      console w' = console w1 ++ [InterruptedByUser; CompletedPagesSaved; UseResumeFlag]
      /\ (snd (_cleanup_browser sc (scraper_state w1)) <> Diverges -> status = Some 0)
  | Raise (FileNotFoundError msg) =>
      console w' = console w1 ++ [ConfigurationError msg; ConfigHint]
      /\ status = Some 0
  | Raise (Exception msg) =>
      console w' = console w1 ++ [CriticalError msg; CheckLogs; FatalErrorLine msg]
      /\ status = Some 1
  | Diverges => w' = w1 /\ status = None
  end
  /\ (summary args = false -> resume args = false ->
      stdin = Raise KeyboardInterrupt ->
      forall s1 cfg, ShoobCardScraper sc (scraper_state w) = (s1, Ok cfg) ->
      r = Ok tt /\ status = Some 0
      /\ console w' = console w ++ [Banner; Initializing] ++ plan_lines args cfg
                       ++ [CancelledByUser]
      /\ UseResumeFlag ∉ [Banner; Initializing] ++ plan_lines args cfg ++ [CancelledByUser]).
Proof.
  intros Hbody. cbn zeta.
  assert (Hfirst :
    match r with
    | Ok _ => fst (script sc stdin args w) = w1 /\ snd (script sc stdin args w) = Some 0
    | Raise KeyboardInterrupt =>
        console (fst (script sc stdin args w)) =
          console w1 ++ [InterruptedByUser; CompletedPagesSaved; UseResumeFlag]
        /\ (snd (_cleanup_browser sc (scraper_state w1)) <> Diverges ->
            snd (script sc stdin args w) = Some 0)
    | Raise (FileNotFoundError msg) =>
        console (fst (script sc stdin args w)) =
          console w1 ++ [ConfigurationError msg; ConfigHint]
        /\ snd (script sc stdin args w) = Some 0
    | Raise (Exception msg) =>
        console (fst (script sc stdin args w)) =
          console w1 ++ [CriticalError msg; CheckLogs; FatalErrorLine msg]
        /\ snd (script sc stdin args w) = Some 1
    | Diverges => fst (script sc stdin args w) = w1 /\ snd (script sc stdin args w) = None
    end).
  { destruct w as [s co ca dbg bd]. destruct w1 as [s1 co1 ca1 dbg1 bd1].
    unfold started in Hbody. cbn in Hbody.
    destruct (_cleanup_browser sc s1) as [s2 cleaned] eqn:Hclean.
    unfold script, main, handlers, try_except, bind, ret, raise, print, enter,
      print_banner, when, scraper_in_locals, invoke.
    cbn. rewrite Hbody.
    destruct r as [[]|[|msg|msg]|]; cbn; try (split; reflexivity).
    - destruct bd1; cbn; [|split; [flatten; reflexivity | reflexivity]].
      rewrite Hclean.
      destruct cleaned as [[]|e|]; cbn;
        (split; [flatten; reflexivity | intros Hret; try reflexivity]).
      now contradiction Hret.
    - split; [flatten; reflexivity | reflexivity].
    - split; [flatten; reflexivity | reflexivity]. }
  split; [exact Hfirst|].
  intros Hsum Hres Hin s1 cfg Hctor.
  rewrite (interrupt_at_the_prompt args w s1 cfg Hsum Hres Hin Hctor) in Hbody.
  injection Hbody as Hw1 Hr. subst r. destruct Hfirst as [Hw' Hstatus].
  repeat split; [exact Hstatus | | apply plan_lines_no_resume_hint].
  rewrite Hw', <- Hw1. reflexivity.
Qed.

Lemma alike_main_body (args : Args) (cfg : Config) :
  alike (main_body sc stdin (with_verbose true args) cfg)
        (main_body sc stdin (with_verbose false args) cfg).
Proof.
  unfold main_body, announce, confirm, run_scraping, report, print_summary,
    with_verbose.
  cbn [start end_ resume summary verbose config when].
  repeat alike_step.
Qed.

Lemma alike_main (args : Args) :
  alike (main sc stdin (with_verbose true args)) (main sc stdin (with_verbose false args)).
Proof.
  unfold main, try_body, handlers, print_banner.
  repeat first [apply alike_main_body | alike_step].
Qed.

(** C9. Two runs that differ only in [--verbose] end with the same exit
    status and leave the scraper in the same state (same pages fetched, same
    data persisted, for every scraper); they make the same calls in the same
    order, the setting of the log level apart, and print the same lines, the
    statistics among them, the line announcing verbose logging apart. *)
Theorem verbose_only_changes_logging (args : Args) (w : World S) :
  let loud := script sc stdin (with_verbose true args) w in
  let plain := script sc stdin (with_verbose false args) w in
  snd loud = snd plain
  /\ scraper_state (fst loud) = scraper_state (fst plain)
  /\ quiet_calls (calls (fst loud)) = quiet_calls (calls (fst plain))
  /\ quiet_console (console (fst loud)) = quiet_console (console (fst plain)).
Proof.
  cbn zeta. unfold script.
  assert (Hw : same_but_logging w w) by (repeat split).
  destruct (alike_main args w w Hw) as [Hsim Hres].
  destruct (main sc stdin (with_verbose true args) w) as [w1 r1].
  destruct (main sc stdin (with_verbose false args) w) as [w2 r2].
  cbn in Hsim, Hres. subst r2.
  assert (Hprint : forall o, same_but_logging (fst (print o w1)) (fst (print o w2)))
    by (intros o; apply alike_print; exact Hsim).
  destruct r1 as [[]|[|msg|msg]|];
    [ | specialize (Hprint Goodbye) | specialize (Hprint (FatalErrorLine msg))
      | specialize (Hprint (FatalErrorLine msg)) | ];
    cbn [fst snd];
    first [destruct Hprint as (Hs & Ho & Hc & _) | destruct Hsim as (Hs & Ho & Hc & _)];
    repeat split; assumption.
Qed.

(** Whatever relation the four methods respect, the whole script respects:
    in every case ([always]), or whenever the process exits. *)
Lemma script_steady (always : bool) (R : S -> S -> Prop) `{!PreOrder R}
    (args : Args) (w : World S) :
  (forall s, (always = false -> snd (ShoobCardScraper sc s) <> Diverges) ->
     R s (fst (ShoobCardScraper sc s))) ->
  (forall s, (always = false -> snd (get_scraped_data_summary sc s) <> Diverges) ->
     R s (fst (get_scraped_data_summary sc s))) ->
  (forall s, (always = false ->
              snd (scrape_all_pages sc (start args) (end_ args) s) <> Diverges) ->
     R s (fst (scrape_all_pages sc (start args) (end_ args) s))) ->
  (forall s, (always = false -> snd (_cleanup_browser sc s) <> Diverges) ->
     R s (fst (_cleanup_browser sc s))) ->
  (always = false -> snd (script sc stdin args w) <> None) ->
  R (scraper_state w) (scraper_state (fst (script sc stdin args w))).
Proof.
  intros Hctor Hsum Hscrape Hclean.
  assert (Hmain : steady always R (main sc stdin args)).
  { unfold main, try_body, handlers, main_body, announce, confirm, run_scraping,
      report, print_summary, print_banner.
    repeat first [steady_step | apply steady_invoke; assumption];
      assumption. }
  unfold script. specialize (Hmain w).
  destruct (main sc stdin args w) as [w1 [[]|[|msg|msg]|]]; cbn [fst snd] in *;
    intros Hexit; try (destruct w1; cbn in *; apply Hmain; discriminate).
  apply Hmain. intros Hal Hdiv. by apply (Hexit Hal).
Qed.

End Generic.

End DriverFacts.

(** * Properties of the orchestrator *)

Module OrchestratorFacts.

Import Orchestrator.

Lemma has_page_append_ne (st : Store) (n p : PageNumber) (cards : list Card) :
  p <> n -> has_page (append_page n cards st) p = has_page st p.
Proof.
  intros Hne. unfold has_page, append_page. cbn.
  apply bool_decide_ext. rewrite elem_of_union, elem_of_singleton. tauto.
Qed.

Lemma has_page_append_eq (st : Store) (n : PageNumber) (cards : list Card) :
  has_page (append_page n cards st) n = true.
Proof.
  unfold has_page, append_page. cbn. apply bool_decide_eq_true.
  apply elem_of_union. left. by apply elem_of_singleton.
Qed.

Section Loop.

Variable env : Env.
Variable resume_flag : bool.
Variable last : option PageNumber.

(** Induction along the transitions of [page_loop]: one case per way a page
    is dealt with. *)
Lemma page_loop_transitions
    (P : nat -> PageNumber -> Counters -> State -> State * outcome Counters -> Prop) :
  (forall n c s, P O n c s (s, Diverges)) ->
  (forall f n c s, past last n = true -> P (S f) n c s (s, Ok c)) ->
  (forall f n c s, past last n = false ->
     resume_flag && has_page (store s) n = true ->
     P f (n + 1) (skipped c) (visit n s)
       (page_loop env resume_flag last f (n + 1) (skipped c) (visit n s)) ->
     P (S f) n c s (page_loop env resume_flag last f (n + 1) (skipped c) (visit n s))) ->
  (forall f n c s, past last n = false ->
     resume_flag && has_page (store s) n = false ->
     fetch env n = Cards [] -> last = None ->
     P (S f) n c s (fetching n (visit n s), Ok c)) ->
  (forall f n c s cards, past last n = false ->
     resume_flag && has_page (store s) n = false ->
     fetch env n = Cards cards -> cards <> [] \/ last <> None ->
     storage_ok env n = true ->
     let s1 := persist n cards (fetching n (visit n s)) in
     P f (n + 1) (scraped cards c) s1
       (page_loop env resume_flag last f (n + 1) (scraped cards c) s1) ->
     P (S f) n c s (page_loop env resume_flag last f (n + 1) (scraped cards c) s1)) ->
  (forall f n c s cards, past last n = false ->
     resume_flag && has_page (store s) n = false ->
     fetch env n = Cards cards -> cards <> [] \/ last <> None ->
     storage_ok env n = false ->
     P (S f) n c s (fetching n (visit n s), Raise (Exception "StorageError"))) ->
  (forall f n c s, past last n = false ->
     resume_flag && has_page (store s) n = false ->
     fetch env n = TransientError ->
     let s1 := fetching n (visit n s) in
     P f (n + 1) (errored c) s1
       (page_loop env resume_flag last f (n + 1) (errored c) s1) ->
     P (S f) n c s (page_loop env resume_flag last f (n + 1) (errored c) s1)) ->
  (forall f n c s msg, past last n = false ->
     resume_flag && has_page (store s) n = false ->
     fetch env n = FatalError msg ->
     P (S f) n c s (fetching n (visit n s), Raise (Exception msg))) ->
  (forall f n c s, past last n = false ->
     resume_flag && has_page (store s) n = false ->
     fetch env n = UserInterrupt ->
     P (S f) n c s (fetching n (visit n s), Raise KeyboardInterrupt)) ->
  forall fuel n c s, P fuel n c s (page_loop env resume_flag last fuel n c s).
Proof.
  intros Hfuel Hpast Hskip Heod Hscrape Hstore Herr Hfatal Hint.
  induction fuel as [|f IH]; intros n c s; cbn [page_loop].
  - apply Hfuel.
  - destruct (past last n) eqn:Hp; [by apply Hpast|].
    cbn [store visit].
    destruct (resume_flag && has_page (store s) n) eqn:Hs; [by apply Hskip|].
    destruct (fetch env n) as [cards| |msg|] eqn:Hf.
    + destruct (bool_decide (cards = [])) eqn:Hc;
        destruct (bool_decide (last = None)) eqn:Hl; cbn [andb].
      * apply bool_decide_eq_true in Hc, Hl. subst cards. by apply Heod.
      * apply bool_decide_eq_false in Hl.
        destruct (storage_ok env n) eqn:Hok;
          [apply (Hscrape f n c s cards) | apply (Hstore f n c s cards)]; auto.
      * apply bool_decide_eq_false in Hc.
        destruct (storage_ok env n) eqn:Hok;
          [apply (Hscrape f n c s cards) | apply (Hstore f n c s cards)]; auto.
      * apply bool_decide_eq_false in Hc.
        destruct (storage_ok env n) eqn:Hok;
          [apply (Hscrape f n c s cards) | apply (Hstore f n c s cards)]; auto.
    + by apply Herr.
    + by apply Hfatal.
    + by apply Hint.
Qed.

(** The loop visits consecutive page numbers from [n] on, fetches some of
    them, and with the resume flag fetches none that the store had. *)
Lemma page_loop_logs fuel n c s :
  let s' := fst (page_loop env resume_flag last fuel n c s) in
  exists (k : nat) (fl : list PageNumber),
    visit_log s' = visit_log s ++ seqZ n (Z.of_nat k)
    /\ fetch_log s' = fetch_log s ++ fl
    /\ fl `sublist_of` seqZ n (Z.of_nat k)
    /\ (resume_flag = true -> forall p, p ∈ fl -> p ∉ completed (store s)).
Proof.
  cbn zeta. revert fuel n c s.
  apply (page_loop_transitions (fun _ n _ s res =>
    exists (k : nat) (fl : list PageNumber),
      visit_log (fst res) = visit_log s ++ seqZ n (Z.of_nat k)
      /\ fetch_log (fst res) = fetch_log s ++ fl
      /\ fl `sublist_of` seqZ n (Z.of_nat k)
      /\ (resume_flag = true -> forall p, p ∈ fl -> p ∉ completed (store s)))).
  - intros n c s. exists O, []. cbn. rewrite !app_nil_r. repeat split; [done|].
    intros _ p Hp. by apply elem_of_nil in Hp.
  - intros f n c s _. exists O, []. cbn. rewrite !app_nil_r. repeat split; [done|].
    intros _ p Hp. by apply elem_of_nil in Hp.
  - intros f n c s _ _ (k & fl & Hv & Hf & Hsub & Hres).
    exists (S k), fl. cbn in Hv, Hf, Hres.
    rewrite Nat2Z.inj_succ, seqZ_cons, Z.pred_succ by lia.
    rewrite Hv, Hf, <- app_assoc. repeat split; [|exact Hres].
    apply sublist_cons. by rewrite <- Z.add_1_r.
  - intros f n c s _ Hs _ _. exists 1%nat, [n]. cbn. repeat split; [done|].
    intros Hr p Hp. apply list_elem_of_singleton in Hp. subst p.
    rewrite Hr in Hs. cbn in Hs. unfold has_page in Hs.
    by apply bool_decide_eq_false in Hs.
  - intros f n c s cards _ Hs _ _ _ s1 (k & fl & Hv & Hf & Hsub & Hres).
    exists (S k), (n :: fl). subst s1. cbn in Hv, Hf, Hres.
    rewrite Nat2Z.inj_succ, seqZ_cons, Z.pred_succ by lia.
    rewrite Hv, Hf, <- !app_assoc. repeat split.
    + apply sublist_skip. by rewrite <- Z.add_1_r.
    + intros Hr p Hp. apply elem_of_cons in Hp as [->|Hp].
      * rewrite Hr in Hs. cbn in Hs. unfold has_page in Hs.
        by apply bool_decide_eq_false in Hs.
      * intros Hin. apply (Hres Hr p Hp), elem_of_union. by right.
  - intros f n c s cards _ Hs _ _ _. exists 1%nat, [n]. cbn. repeat split; [done|].
    intros Hr p Hp. apply list_elem_of_singleton in Hp. subst p.
    rewrite Hr in Hs. cbn in Hs. unfold has_page in Hs.
    by apply bool_decide_eq_false in Hs.
  - intros f n c s _ Hs _ s1 (k & fl & Hv & Hf & Hsub & Hres).
    exists (S k), (n :: fl). subst s1. cbn in Hv, Hf, Hres.
    rewrite Nat2Z.inj_succ, seqZ_cons, Z.pred_succ by lia.
    rewrite Hv, Hf, <- !app_assoc. repeat split.
    + apply sublist_skip. by rewrite <- Z.add_1_r.
    + intros Hr p Hp. apply elem_of_cons in Hp as [->|Hp]; [|by apply Hres].
      rewrite Hr in Hs. cbn in Hs. unfold has_page in Hs.
      by apply bool_decide_eq_false in Hs.
  - intros f n c s msg _ Hs _. exists 1%nat, [n]. cbn. repeat split; [done|].
    intros Hr p Hp. apply list_elem_of_singleton in Hp. subst p.
    rewrite Hr in Hs. cbn in Hs. unfold has_page in Hs.
    by apply bool_decide_eq_false in Hs.
  - intros f n c s _ Hs _. exists 1%nat, [n]. cbn. repeat split; [done|].
    intros Hr p Hp. apply list_elem_of_singleton in Hp. subst p.
    rewrite Hr in Hs. cbn in Hs. unfold has_page in Hs.
    by apply bool_decide_eq_false in Hs.
Qed.

(** The loop only adds to the store: what an [append_page] that returned
    has persisted stays persisted. *)
Lemma page_loop_store fuel n c s :
  let s' := fst (page_loop env resume_flag last fuel n c s) in
  phase s' = phase s
  /\ completed (store s) ⊆ completed (store s')
  /\ (forall p, p ∈ completed (store s') -> p ∈ completed (store s) \/ n <= p)
  /\ (exists added, collection (store s') = collection (store s) ++ added)
  /\ exists al, append_log s' = append_log s ++ al
       /\ forall p cards, (p, cards) ∈ al ->
            p ∈ completed (store s')
            /\ forall card, card ∈ cards -> (p, card) ∈ collection (store s').
Proof.
  cbn zeta. revert fuel n c s.
  assert (Hstop : forall n s,
    phase s = phase s
    /\ completed (store s) ⊆ completed (store s)
    /\ (forall p, p ∈ completed (store s) -> p ∈ completed (store s) \/ n <= p)
    /\ (exists added, collection (store s) = collection (store s) ++ added)
    /\ exists al, append_log s = append_log s ++ al
         /\ forall p cards, (p, cards) ∈ al ->
              p ∈ completed (store s)
              /\ forall card, card ∈ cards -> (p, card) ∈ collection (store s)).
  { intros n s. repeat split; [done | by left | exists []; by rewrite app_nil_r |].
    exists []. split; [by rewrite app_nil_r|]. intros p cards Hin.
    by apply elem_of_nil in Hin. }
  apply (page_loop_transitions (fun _ n _ s res =>
    phase (fst res) = phase s
    /\ completed (store s) ⊆ completed (store (fst res))
    /\ (forall p, p ∈ completed (store (fst res)) -> p ∈ completed (store s) \/ n <= p)
    /\ (exists added, collection (store (fst res)) = collection (store s) ++ added)
    /\ exists al, append_log (fst res) = append_log s ++ al
         /\ forall p cards, (p, cards) ∈ al ->
              p ∈ completed (store (fst res))
              /\ forall card, card ∈ cards -> (p, card) ∈ collection (store (fst res))));
    try (intros; apply (Hstop n s)).
  - intros f n c s _ _ (Hp & Hsub & Hge & Hcol & Hal). cbn in *.
    repeat split; try assumption.
    intros p Hin. destruct (Hge p Hin); [by left | right; lia].
  - intros f n c s cards _ _ _ _ _ s1 (Hp & Hsub & Hge & [added Hcol] & [al [Hal Hin]]).
    subst s1. cbn in *. repeat split; try assumption.
    + intros p Hp'. apply Hsub, elem_of_union. by right.
    + intros p Hp'. destruct (Hge p Hp') as [Hp''|Hp'']; [|right; lia].
      apply elem_of_union in Hp'' as [Hp''|Hp'']; [|by left].
      apply elem_of_singleton in Hp''. right. lia.
    + exists (map (pair n) cards ++ added). by rewrite Hcol, <- app_assoc.
    + exists ((n, cards) :: al). split; [by rewrite Hal, <- app_assoc|].
      intros p cs Hpc. apply elem_of_cons in Hpc as [Heq|Hpc]; [|by apply Hin].
      injection Heq as -> ->.
      split; [apply Hsub, elem_of_union; left; by apply elem_of_singleton|].
      intros card Hcard. rewrite Hcol, !elem_of_app. left. right.
      apply list_elem_of_fmap. by exists card.
  - intros f n c s _ _ _ s1 (Hp & Hsub & Hge & Hcol & Hal).
    subst s1. cbn in *. repeat split; try assumption.
    intros p Hin. destruct (Hge p Hin); [by left | right; lia].
Qed.

(** Every visited page is counted once, as scraped, skipped or failed; the
    page whose zero-card result ends an open-ended run is visited and not
    counted.  No counter ever decreases. *)
Lemma page_loop_counts fuel n c s c' :
  snd (page_loop env resume_flag last fuel n c s) = Ok c' ->
  let s' := fst (page_loop env resume_flag last fuel n c s) in
  Z.of_nat (length (visit_log s')) =
    Z.of_nat (length (visit_log s)) + (handled c' - handled c)
    + (match last with Some _ => 0 | None => 1 end)
  /\ c_scraped c <= c_scraped c' /\ c_skipped c <= c_skipped c'
  /\ c_cards c <= c_cards c' /\ c_errors c <= c_errors c'.
Proof.
  cbn zeta. revert c'. revert fuel n c s.
  apply (page_loop_transitions (fun _ n c s res => forall c',
    snd res = Ok c' ->
    Z.of_nat (length (visit_log (fst res))) =
      Z.of_nat (length (visit_log s)) + (handled c' - handled c)
      + (match last with Some _ => 0 | None => 1 end)
    /\ c_scraped c <= c_scraped c' /\ c_skipped c <= c_skipped c'
    /\ c_cards c <= c_cards c' /\ c_errors c <= c_errors c'));
    cbn [fst snd]; try discriminate.
  - intros f n c s Hp c' [= <-]. destruct last; [lia | discriminate].
  - intros f n c s _ _ IH c' Hc'. specialize (IH c' Hc'). revert IH.
    unfold handled, skipped. cbn. rewrite length_app. cbn. lia.
  - intros f n c s _ _ _ -> c' [= <-]. cbn. rewrite length_app. cbn. lia.
  - intros f n c s cards _ _ _ _ _ IH c' Hc'. specialize (IH c' Hc'). revert IH.
    unfold handled, scraped. cbn. rewrite length_app. cbn. lia.
  - intros f n c s _ _ _ IH c' Hc'. specialize (IH c' Hc'). revert IH.
    unfold handled, errored. cbn. rewrite length_app. cbn. lia.
Qed.

(** With an end page the loop returns within the size of the range. *)
Lemma page_loop_returns fuel n c s e :
  last = Some e -> (Z.to_nat (e - n + 1) < fuel)%nat ->
  snd (page_loop env resume_flag last fuel n c s) <> Diverges.
Proof.
  revert e. revert fuel n c s.
  apply (page_loop_transitions (fun fuel n _ _ res => forall e,
    last = Some e -> (Z.to_nat (e - n + 1) < fuel)%nat -> snd res <> Diverges));
    cbn [fst snd]; try (intros; discriminate).
  - intros n c s e _ Hlt. lia.
  - intros f n c s Hp _ IH e He Hlt. apply (IH e He).
    rewrite He in Hp. cbn in Hp. apply Z.ltb_ge in Hp. lia.
  - intros f n c s cards Hp _ _ _ _ IH e He Hlt. apply (IH e He).
    rewrite He in Hp. cbn in Hp. apply Z.ltb_ge in Hp. lia.
  - intros f n c s Hp _ _ IH e He Hlt. apply (IH e He).
    rewrite He in Hp. cbn in Hp. apply Z.ltb_ge in Hp. lia.
Qed.

(** With an end page a completed loop has visited every page up to it:
    no zero-card result stops it. *)
Lemma page_loop_whole_range fuel n c s e c' :
  last = Some e ->
  snd (page_loop env resume_flag last fuel n c s) = Ok c' ->
  visit_log (fst (page_loop env resume_flag last fuel n c s)) =
    visit_log s ++ seqZ n (e - n + 1).
Proof.
  revert e c'. revert fuel n c s.
  apply (page_loop_transitions (fun _ n _ s res => forall e c',
    last = Some e -> snd res = Ok c' ->
    visit_log (fst res) = visit_log s ++ seqZ n (e - n + 1)));
    cbn [fst snd]; try (intros; discriminate).
  - intros f n c s Hp e c' He _. rewrite He in Hp. cbn in Hp.
    apply Z.ltb_lt in Hp. rewrite seqZ_nil by lia. by rewrite app_nil_r.
  - intros f n c s Hp _ IH e c' He Hc'. rewrite (IH e c' He Hc'). cbn.
    rewrite He in Hp. cbn in Hp. apply Z.ltb_ge in Hp.
    rewrite (seqZ_cons n) by lia. rewrite <- app_assoc. cbn.
    do 3 f_equal; lia.
  - intros f n c s _ _ _ Hl e c' He. congruence.
  - intros f n c s cards Hp _ _ _ _ IH e c' He Hc'. rewrite (IH e c' He Hc'). cbn.
    rewrite He in Hp. cbn in Hp. apply Z.ltb_ge in Hp.
    rewrite (seqZ_cons n) by lia. rewrite <- app_assoc. cbn.
    do 3 f_equal; lia.
  - intros f n c s Hp _ _ IH e c' He Hc'. rewrite (IH e c' He Hc'). cbn.
    rewrite He in Hp. cbn in Hp. apply Z.ltb_ge in Hp.
    rewrite (seqZ_cons n) by lia. rewrite <- app_assoc. cbn.
    do 3 f_equal; lia.
Qed.

(** Without an end page a completed loop has stopped at the first page it
    fetched with a zero-card result: every page before it was skipped or
    did not come back with zero cards. *)
Lemma page_loop_open_ended fuel n c s c' :
  last = None ->
  snd (page_loop env resume_flag last fuel n c s) = Ok c' ->
  exists k : nat,
    visit_log (fst (page_loop env resume_flag last fuel n c s)) =
      visit_log s ++ seqZ n (Z.of_nat (S k))
    /\ fetch env (n + Z.of_nat k) = Cards []
    /\ resume_flag && has_page (store s) (n + Z.of_nat k) = false
    /\ forall p, n <= p < n + Z.of_nat k ->
         fetch env p <> Cards [] \/ resume_flag && has_page (store s) p = true.
Proof.
  intros Hlast. revert c'. revert fuel n c s.
  assert (Hshift : forall (n : Z) (k : nat) (l : list Z),
    (l ++ [n]) ++ seqZ (n + 1) (Z.of_nat (S k)) = l ++ seqZ n (Z.of_nat (S (S k)))).
  { intros n k l. rewrite <- app_assoc. cbn. f_equal.
    rewrite (seqZ_cons n) by lia. do 2 f_equal; lia. }
  apply (page_loop_transitions (fun _ n _ s res => forall c',
    snd res = Ok c' ->
    exists k : nat,
      visit_log (fst res) = visit_log s ++ seqZ n (Z.of_nat (S k))
      /\ fetch env (n + Z.of_nat k) = Cards []
      /\ resume_flag && has_page (store s) (n + Z.of_nat k) = false
      /\ forall p, n <= p < n + Z.of_nat k ->
           fetch env p <> Cards [] \/ resume_flag && has_page (store s) p = true));
    cbn [fst snd]; try (intros; discriminate).
  - intros f n c s Hp. rewrite Hlast in Hp. discriminate.
  - intros f n c s _ Hs IH c' Hc'. destruct (IH c' Hc') as (k & Hv & Hf & Hq & Hbefore).
    exists (S k). cbn in Hv, Hq, Hbefore.
    replace (n + Z.of_nat (S k)) with (n + 1 + Z.of_nat k) by lia.
    rewrite Hv, Hshift. repeat split; try assumption.
    intros p Hp. destruct (decide (p = n)) as [->|Hne]; [by right|].
    apply Hbefore. lia.
  - intros f n c s _ Hs Hf _ c' _. exists O. cbn.
    rewrite Z.add_0_r. repeat split; try assumption. intros p Hp. lia.
  - intros f n c s cards _ Hs Hf Hne _ IH c' Hc'.
    destruct (IH c' Hc') as (k & Hv & Hfq & Hq & Hbefore).
    exists (S k). cbn in Hv, Hq, Hbefore.
    replace (n + Z.of_nat (S k)) with (n + 1 + Z.of_nat k) by lia.
    rewrite Hv, Hshift. repeat split; try assumption.
    + rewrite has_page_append_ne in Hq by lia. exact Hq.
    + intros p Hp. destruct (decide (p = n)) as [->|Hpn].
      * left. rewrite Hf. intros [= ->]. by destruct Hne.
      * rewrite <- (has_page_append_ne (store s) n p cards) by exact Hpn.
        apply Hbefore. lia.
  - intros f n c s _ Hs Hf IH c' Hc'.
    destruct (IH c' Hc') as (k & Hv & Hfq & Hq & Hbefore).
    exists (S k). cbn in Hv, Hq, Hbefore.
    replace (n + Z.of_nat (S k)) with (n + 1 + Z.of_nat k) by lia.
    rewrite Hv, Hshift. repeat split; try assumption.
    intros p Hp. destruct (decide (p = n)) as [->|Hpn].
    + left. by rewrite Hf.
    + apply Hbefore. lia.
Qed.

(** Resuming over what a completed resumed loop left: the same pages are
    visited, none is scraped and the store stays as it is. *)
Lemma page_loop_again fuel n c s c' :
  resume_flag = true ->
  snd (page_loop env resume_flag last fuel n c s) = Ok c' ->
  forall d t,
    (forall p, n <= p ->
       has_page (store t) p =
       has_page (store (fst (page_loop env resume_flag last fuel n c s))) p) ->
    exists d',
      snd (page_loop env resume_flag last fuel n d t) = Ok d'
      /\ c_scraped d' = c_scraped d
      /\ store (fst (page_loop env resume_flag last fuel n d t)) = store t.
Proof.
  intros Hres. revert c'. revert fuel n c s.
  assert (Hand : forall b, resume_flag && b = b) by (intros b; by rewrite Hres).
  assert (Hkept : forall f m c s n,
    has_page (store s) n = true ->
    has_page (store (fst (page_loop env resume_flag last f m c s))) n = true).
  { intros f m c s n Hn. apply bool_decide_eq_true.
    destruct (page_loop_store f m c s) as (_ & Hsub & _).
    apply Hsub. by apply bool_decide_eq_true in Hn. }
  assert (Hlater : forall f m c s n,
    n < m -> has_page (store s) n = false ->
    has_page (store (fst (page_loop env resume_flag last f m c s))) n = false).
  { intros f m c s n Hlt Hn. apply bool_decide_eq_false. intros Hin.
    destruct (page_loop_store f m c s) as (_ & _ & Hge & _).
    destruct (Hge n Hin) as [Hold|Hle]; [|lia].
    by apply bool_decide_eq_false in Hn. }
  apply (page_loop_transitions (fun fuel n _ _ res => forall c',
    snd res = Ok c' ->
    forall d t,
      (forall p, n <= p -> has_page (store t) p = has_page (store (fst res)) p) ->
      exists d',
        snd (page_loop env resume_flag last fuel n d t) = Ok d'
        /\ c_scraped d' = c_scraped d
        /\ store (fst (page_loop env resume_flag last fuel n d t)) = store t));
    cbn [fst snd]; try (intros; discriminate).
  - intros f n c s Hp c' _ d t _. cbn [page_loop]. rewrite Hp. by exists d.
  - intros f n c s Hp Hs IH c' Hc' d t Ht.
    rewrite Hand in Hs.
    assert (Htn : has_page (store t) n = true).
    { rewrite (Ht n) by lia. by apply Hkept. }
    cbn [page_loop]. rewrite Hp. cbn [store visit].
    rewrite Hand, Htn.
    destruct (IH c' Hc' (skipped d) (visit n t)) as (d' & Hd' & Hsc & Hst).
    { intros p Hp'. apply Ht. lia. }
    exists d'. repeat split; [exact Hd' | exact Hsc | exact Hst].
  - intros f n c s Hp Hs Hf Hl c' _ d t Ht.
    rewrite Hand in Hs.
    assert (Htn : has_page (store t) n = false) by (rewrite (Ht n) by lia; exact Hs).
    cbn [page_loop]. rewrite Hp. cbn [store visit].
    rewrite Hand, Htn.
    rewrite Hf, Hl. cbn. by exists d.
  - intros f n c s cards Hp Hs Hf Hne Hok IH c' Hc' d t Ht.
    assert (Htn : has_page (store t) n = true).
    { rewrite (Ht n) by lia. apply Hkept. cbn. apply has_page_append_eq. }
    cbn [page_loop]. rewrite Hp. cbn [store visit].
    rewrite Hand, Htn.
    destruct (IH c' Hc' (skipped d) (visit n t)) as (d' & Hd' & Hsc & Hst).
    { intros p Hp'. apply Ht. lia. }
    exists d'. repeat split; [exact Hd' | exact Hsc | exact Hst].
  - intros f n c s Hp Hs Hf IH c' Hc' d t Ht.
    rewrite Hand in Hs.
    assert (Htn : has_page (store t) n = false).
    { rewrite (Ht n) by lia. apply Hlater; [lia | exact Hs]. }
    cbn [page_loop]. rewrite Hp. cbn [store visit].
    rewrite Hand, Htn.
    rewrite Hf.
    destruct (IH c' Hc' (errored d) (fetching n (visit n t))) as (d' & Hd' & Hsc & Hst).
    { intros p Hp'. apply Ht. lia. }
    exists d'. repeat split; [exact Hd' | exact Hsc | exact Hst].
Qed.

Lemma goes_on_append (st : Store) (n p : PageNumber) (cards : list Card) :
  p <> n ->
  goes_on env resume_flag last st p ->
  goes_on env resume_flag last (append_page n cards st) p.
Proof.
  intros Hne Hgo. unfold goes_on. by rewrite has_page_append_ne.
Qed.

(** Pages that do not stop the run are gone through one by one: after [k]
    of them the loop stands at page [n + k], and what the store says of the
    pages from there on has not changed. *)
Lemma page_loop_goes_on (k : nat) : forall fuel n c s,
  (forall p, n <= p < n + Z.of_nat k ->
     past last p = false /\ goes_on env resume_flag last (store s) p) ->
  exists c1 s1,
    page_loop env resume_flag last (k + fuel) n c s =
      page_loop env resume_flag last fuel (n + Z.of_nat k) c1 s1
    /\ visit_log s1 = visit_log s ++ seqZ n (Z.of_nat k)
    /\ phase s1 = phase s
    /\ forall p, n + Z.of_nat k <= p -> has_page (store s1) p = has_page (store s) p.
Proof.
  induction k as [|k IH]; intros fuel n c s Hpages.
  - exists c, s. cbn. rewrite Z.add_0_r, app_nil_r. by repeat split.
  - destruct (Hpages n) as [Hpast Hgo]; [lia|].
    assert (Hshift : forall l : list Z,
      (l ++ [n]) ++ seqZ (n + 1) (Z.of_nat k) = l ++ seqZ n (Z.of_nat (S k))).
    { intros l. rewrite <- app_assoc. cbn [app]. f_equal.
      rewrite (seqZ_cons n) by lia. do 2 f_equal; lia. }
    replace (n + Z.of_nat (S k)) with (n + 1 + Z.of_nat k) by lia.
    cbn [Nat.add page_loop]. rewrite Hpast. cbn [store visit].
    destruct (resume_flag && has_page (store s) n) eqn:Hskip.
    + destruct (IH fuel (n + 1) (skipped c) (visit n s)) as (c1 & s1 & Heq & Hv & Hph & Hhas).
      { intros p Hp. apply Hpages. lia. }
      exists c1, s1. rewrite Heq, Hv. cbn [visit_log visit]. rewrite Hshift.
      repeat split; [exact Hph|]. intros p Hp. apply Hhas. lia.
    + destruct Hgo as [Hgo|[Hfetch|(cards & Hfetch & Hcards & Hok)]].
      * congruence.
      * rewrite Hfetch.
        destruct (IH fuel (n + 1) (errored c) (fetching n (visit n s)))
          as (c1 & s1 & Heq & Hv & Hph & Hhas).
        { intros p Hp. apply Hpages. lia. }
        exists c1, s1. rewrite Heq, Hv. cbn [visit_log visit fetching]. rewrite Hshift.
        repeat split; [exact Hph|]. intros p Hp. apply Hhas. lia.
      * rewrite Hfetch, Hok.
        assert (Hgoes : (bool_decide (cards = []) && bool_decide (last = None))%bool = false).
        { destruct Hcards as [Hne|Hne];
            [rewrite (bool_decide_eq_false_2 _ Hne)
            |rewrite (bool_decide_eq_false_2 _ Hne), andb_false_r]; reflexivity. }
        rewrite Hgoes.
        destruct (IH fuel (n + 1) (scraped cards c) (persist n cards (fetching n (visit n s))))
          as (c1 & s1 & Heq & Hv & Hph & Hhas).
        { intros p Hp. destruct (Hpages p) as [Hpp Hgp]; [lia|]. split; [exact Hpp|].
          cbn [store persist fetching visit]. apply goes_on_append; [lia | exact Hgp]. }
        exists c1, s1. rewrite Heq, Hv. cbn [visit_log visit fetching persist].
        rewrite Hshift. repeat split; [exact Hph|].
        intros p Hp. rewrite Hhas by lia. cbn [store persist fetching visit].
        apply has_page_append_ne. lia.
Qed.

(** With an end page, a range whose pages do not stop the run is gone
    through to its end, and the loop returns. *)
Lemma page_loop_completes_range fuel n c s e :
  last = Some e ->
  (Z.to_nat (e - n + 1) < fuel)%nat ->
  (forall p, n <= p <= e -> goes_on env resume_flag last (store s) p) ->
  exists c' s',
    page_loop env resume_flag last fuel n c s = (s', Ok c')
    /\ visit_log s' = visit_log s ++ seqZ n (e - n + 1)
    /\ phase s' = phase s.
Proof.
  intros He Hfuel Hpages.
  set (k := Z.to_nat (e - n + 1)).
  destruct (page_loop_goes_on k (fuel - k) n c s) as (c1 & s1 & Heq & Hv & Hph & _).
  { intros p Hp. split; [|apply Hpages; lia].
    rewrite He. cbn. apply Z.ltb_ge. lia. }
  replace (k + (fuel - k))%nat with fuel in Heq by lia.
  exists c1, s1. rewrite Heq.
  destruct (fuel - k)%nat as [|f] eqn:Hf; [lia|].
  cbn [page_loop].
  assert (Hpast : past last (n + Z.of_nat k) = true).
  { rewrite He. cbn. apply Z.ltb_lt. lia. }
  rewrite Hpast. repeat split; [|exact Hph].
  rewrite Hv. f_equal.
  destruct (Z_le_gt_dec 0 (e - n + 1)) as [Hpos|Hneg].
  - f_equal. lia.
  - rewrite !seqZ_nil by lia. reflexivity.
Qed.

(** Without an end page, the loop returns at the first page that is fetched
    with a zero-card result: the page is visited, nothing of it is
    persisted. *)
Lemma page_loop_ends_on_zero_cards fuel n c s (k : nat) :
  last = None ->
  (k < fuel)%nat ->
  fetch env (n + Z.of_nat k) = Cards [] ->
  resume_flag && has_page (store s) (n + Z.of_nat k) = false ->
  (forall p, n <= p < n + Z.of_nat k -> goes_on env resume_flag last (store s) p) ->
  exists c' s',
    page_loop env resume_flag last fuel n c s = (s', Ok c')
    /\ visit_log s' = visit_log s ++ seqZ n (Z.of_nat (S k))
    /\ phase s' = phase s
    /\ has_page (store s') (n + Z.of_nat k) = has_page (store s) (n + Z.of_nat k).
Proof.
  intros Hnone Hfuel Hzero Hfresh Hpages.
  destruct (page_loop_goes_on k (fuel - k) n c s) as (c1 & s1 & Heq & Hv & Hph & Hhas).
  { intros p Hp. split; [by rewrite Hnone | by apply Hpages]. }
  replace (k + (fuel - k))%nat with fuel in Heq by lia.
  rewrite Heq. destruct (fuel - k)%nat as [|f] eqn:Hf; [lia|].
  cbn [page_loop]. rewrite Hnone. cbn [past store visit].
  rewrite (Hhas (n + Z.of_nat k)) by lia. rewrite Hfresh, Hzero. cbn.
  eexists _, _. split; [reflexivity|]. cbn. rewrite Hv, <- app_assoc.
  repeat split; [| exact Hph | apply Hhas; lia].
  f_equal. rewrite Nat2Z.inj_succ. unfold Z.succ.
  rewrite seqZ_app by lia. cbn. by rewrite Z.add_0_l || reflexivity.
Qed.

End Loop.

Lemma seqZ_ascending (n : Z) (k : nat) : StronglySorted Z.lt (seqZ n (Z.of_nat k)).
Proof.
  revert n. induction k as [|k IH]; intros n.
  - cbn. constructor.
  - rewrite Nat2Z.inj_succ, seqZ_cons, Z.pred_succ by lia.
    constructor; [apply IH|]. apply Forall_seqZ. lia.
Qed.

Lemma sublist_ascending (l1 l2 : list Z) :
  l1 `sublist_of` l2 -> StronglySorted Z.lt l2 -> StronglySorted Z.lt l1.
Proof.
  induction 1 as [|x l1 l2 Hsub IH|x l1 l2 Hsub IH]; intros Hsorted.
  - constructor.
  - apply StronglySorted_inv in Hsorted as [Hl2 Hx].
    constructor; [by apply IH|].
    rewrite Forall_forall in Hx |- *. intros y Hy.
    apply Hx. by apply (elem_of_sublist l1 l2).
  - apply StronglySorted_inv in Hsorted as [Hl2 _]. by apply IH.
Qed.

Lemma rate_defined (ps er : Z) :
  (ps + er <> 0 -> (rate ps er == 100 * (inject_Z ps / inject_Z (ps + er)))%Q)
  /\ (ps + er = 0 -> (rate ps er == 100)%Q).
Proof.
  unfold rate. split; intros H.
  - apply Z.eqb_neq in H. rewrite H. reflexivity.
  - apply Z.eqb_eq in H. rewrite H. reflexivity.
Qed.

Lemma rate_bounds (ps er : Z) :
  0 <= ps -> 0 <= er -> (0 <= rate ps er /\ rate ps er <= 100)%Q.
Proof.
  intros Hps Her. unfold rate.
  destruct (ps + er =? 0) eqn:Hd; [split; discriminate|].
  apply Z.eqb_neq in Hd.
  assert (Hpos : (0 < inject_Z (ps + er))%Q).
  { rewrite <- (Zlt_Qlt 0). lia. }
  split.
  - apply Qmult_le_0_compat; [discriminate|].
    apply Qle_shift_div_l; [exact Hpos|].
    rewrite Qmult_0_l. rewrite <- (Zle_Qle 0). exact Hps.
  - rewrite <- (Qmult_1_r 100) at 2.
    apply Qmult_le_l; [reflexivity|].
    apply Qle_shift_div_r; [exact Hpos|].
    rewrite Qmult_1_l. rewrite <- Zle_Qle. lia.
Qed.

Lemma rate_without_errors (ps : Z) : 0 < ps -> (rate ps 0 == 100)%Q.
Proof.
  intros Hps. unfold rate. rewrite Z.add_0_r.
  destruct (ps =? 0) eqn:Hd; [reflexivity|].
  unfold Qdiv. rewrite Qmult_inv_r; [reflexivity|].
  intros H. apply (Qlt_irrefl 0). rewrite <- H at 2.
  rewrite <- (Zlt_Qlt 0). exact Hps.
Qed.

Section Run.

Variable env : Env.
Variable resume_flag : bool.

(** [scrape_all_pages] is the loop, entered Running and left Completed,
    Cancelled or Failed. *)
Lemma scrape_all_pages_loop (a b : option Z) (s : State) :
  let res := page_loop env resume_flag (last_page env b)
               (budget env (first_page env a) (last_page env b))
               (first_page env a) zero (set_phase Running s) in
  scrape_all_pages env resume_flag a b s =
    match snd res with
    | Ok c => (set_phase Completed (fst res), Ok (statistics (clock env) c))
    | Raise KeyboardInterrupt => (set_phase Cancelled (fst res), Raise KeyboardInterrupt)
    | Raise e => (set_phase Failed (fst res), Raise e)
    | Diverges => (fst res, Diverges)
    end.
Proof.
  cbn zeta. unfold scrape_all_pages.
  destruct (page_loop _ _ _ _ _ _ _) as [s' [c|[| |]|]]; reflexivity.
Qed.

(** C4. A run visits consecutive page numbers upwards from the first page,
    so its visits and its fetches are strictly ascending.  With an end page
    (given on the command line or configured) a zero-card result is a page
    like any other: the run returns, it completes whenever no page of the
    range stops it, and a run that completes has visited every page up to
    the end page.  Without an end page the first page that is fetched with
    a zero-card result is the end of the data: the run completes there,
    having visited the pages up to that one and persisted nothing of it;
    and a run that completes has stopped at such a page.  On pages 1 to 3
    holding 5, 0 and 4 cards the statistics are 3 pages scraped, 9 cards,
    0 errors. *)
Theorem ascending_pages_and_end_of_data (a b : option Z) (s : State) :
  let first := first_page env a in
  let last := last_page env b in
  let res := scrape_all_pages env resume_flag a b s in
  (exists (k : nat) (fl : list PageNumber),
     visit_log (fst res) = visit_log s ++ seqZ first (Z.of_nat k)
     /\ fetch_log (fst res) = fetch_log s ++ fl
     /\ StronglySorted Z.lt (seqZ first (Z.of_nat k))
     /\ StronglySorted Z.lt fl)
  /\ (forall e, last = Some e ->
       snd res <> Diverges
       /\ ((forall p, first <= p <= e -> goes_on env resume_flag last (store s) p) ->
           exists stats, snd res = Ok stats)
       /\ forall stats, snd res = Ok stats ->
            phase (fst res) = Completed
            /\ visit_log (fst res) = visit_log s ++ seqZ first (e - first + 1))
  /\ (last = None ->
       (forall k : nat,
          (k < patience env)%nat ->
          fetch env (first + Z.of_nat k) = Cards [] ->
          resume_flag && has_page (store s) (first + Z.of_nat k) = false ->
          (forall p, first <= p < first + Z.of_nat k ->
             goes_on env resume_flag last (store s) p) ->
          exists stats,
            snd res = Ok stats
            /\ phase (fst res) = Completed
            /\ visit_log (fst res) = visit_log s ++ seqZ first (Z.of_nat (S k))
            /\ has_page (store (fst res)) (first + Z.of_nat k) =
               has_page (store s) (first + Z.of_nat k))
       /\ forall stats, snd res = Ok stats ->
          exists k : nat,
            phase (fst res) = Completed
            /\ visit_log (fst res) = visit_log s ++ seqZ first (Z.of_nat (S k))
            /\ fetch env (first + Z.of_nat k) = Cards []
            /\ resume_flag && has_page (store s) (first + Z.of_nat k) = false
            /\ forall p, first <= p < first + Z.of_nat k ->
                 fetch env p <> Cards [] \/ resume_flag && has_page (store s) p = true)
  /\ (let stats := snd (scrape_all_pages (sample_env fetch_5_0_4) false
                          (Some 1) (Some 3) (initial empty_store)) in
      exists st, stats = Ok st
        /\ pages_scraped st = 3 /\ cards_extracted st = 9 /\ errors st = 0).
Proof.
  cbn zeta. rewrite scrape_all_pages_loop. cbn zeta.
  set (first := first_page env a). set (last := last_page env b).
  set (s0 := set_phase Running s).
  set (fuel := budget env first last).
  pose proof (page_loop_logs env resume_flag last fuel first zero s0) as Hlogs.
  pose proof (page_loop_returns env resume_flag last fuel first zero s0) as Hret.
  pose proof (page_loop_whole_range env resume_flag last fuel first zero s0) as Hwhole.
  pose proof (page_loop_open_ended env resume_flag last fuel first zero s0) as Hopen.
  pose proof (page_loop_completes_range env resume_flag last fuel first zero s0) as Hrange.
  pose proof (page_loop_ends_on_zero_cards env resume_flag last fuel first zero s0) as Hzero.
  cbn zeta in Hlogs.
  destruct (page_loop env resume_flag last fuel first zero s0) as [s' r].
  cbn [fst snd] in *.
  split; [|split; [|split]].
  - destruct Hlogs as (k & fl & Hv & Hf & Hsub & _). exists k, fl.
    assert (Hasc := seqZ_ascending first k).
    assert (Hfasc := sublist_ascending _ _ Hsub Hasc).
    destruct r as [c|[| |]|]; cbn; repeat split; assumption.
  - intros e He. assert (Hfuel : (Z.to_nat (e - first + 1) < fuel)%nat).
    { unfold fuel, budget. rewrite He. lia. }
    split; [|split].
    + assert (Hr : r <> Diverges) by (by apply (Hret e He)).
      destruct r as [c|[| |]|]; cbn; congruence.
    + intros Hpages. destruct (Hrange e He Hfuel Hpages) as (c' & s1 & [= -> ->] & _).
      eexists. reflexivity.
    + intros stats Hstats. destruct r as [c|[| |]|]; try discriminate. cbn.
      split; [reflexivity|]. apply (Hwhole e c He eq_refl).
  - intros Hnone. split.
    + intros k Hk Hfetch Hfresh Hpages.
      assert (Hfuel : (k < fuel)%nat) by (unfold fuel, budget; by rewrite Hnone).
      destruct (Hzero k Hnone Hfuel Hfetch Hfresh Hpages)
        as (c' & s1 & [= -> ->] & Hv & _ & Hhas).
      eexists. split; [reflexivity|]. cbn. repeat split; assumption.
    + intros stats Hstats. destruct r as [c|[| |]|]; try discriminate.
      destruct (Hopen c Hnone eq_refl) as (k & Hv & Hf & Hq & Hbefore).
      exists k. cbn. repeat split; assumption.
  - vm_compute. eexists. repeat split.
Qed.

Lemma completed_run_counters (a b : option Z) (s : State) (stats : RunStatistics) :
  snd (scrape_all_pages env resume_flag a b s) = Ok stats ->
  exists c,
    snd (page_loop env resume_flag (last_page env b)
           (budget env (first_page env a) (last_page env b))
           (first_page env a) zero (set_phase Running s)) = Ok c
    /\ stats = statistics (clock env) c
    /\ fst (scrape_all_pages env resume_flag a b s) =
       set_phase Completed
         (fst (page_loop env resume_flag (last_page env b)
                 (budget env (first_page env a) (last_page env b))
                 (first_page env a) zero (set_phase Running s))).
Proof.
  rewrite scrape_all_pages_loop. cbn zeta.
  destruct (page_loop _ _ _ _ _ _ _) as [s' [c|[| |]|]]; cbn; try discriminate.
  intros [= <-]. by exists c.
Qed.

(** C5. The success rate of a completed run is the ratio of the scraped
    pages to the scraped and failed ones, as a percentage, and 100 percent
    when there are neither; it lies between 0 and 100, and is 100 when no
    page failed and some page was scraped. *)
Theorem success_rate_is_a_percentage (a b : option Z) (s : State)
    (stats : RunStatistics) :
  snd (scrape_all_pages env resume_flag a b s) = Ok stats ->
  (pages_scraped stats + errors stats <> 0 ->
     (success_rate stats ==
        100 * (inject_Z (pages_scraped stats)
               / inject_Z (pages_scraped stats + errors stats)))%Q)
  /\ (pages_scraped stats + errors stats = 0 -> (success_rate stats == 100)%Q)
  /\ (0 <= success_rate stats)%Q /\ (success_rate stats <= 100)%Q
  /\ (errors stats = 0 -> 0 < pages_scraped stats -> (success_rate stats == 100)%Q).
Proof.
  intros Hok. destruct (completed_run_counters a b s stats Hok) as (c & Hc & -> & _).
  destruct (page_loop_counts env resume_flag _ _ _ _ _ c Hc) as (_ & Hps & _ & _ & Her).
  cbn in *.
  destruct (rate_defined (c_scraped c) (c_errors c)) as [Hdef Hzero].
  destruct (rate_bounds (c_scraped c) (c_errors c) Hps Her) as [Hlo Hhi].
  repeat split; try assumption.
  intros -> Hpos. by apply rate_without_errors.
Qed.

End Run.

#[local] Instance refetches_nothing_preorder : PreOrder refetches_nothing.
Proof.
  split.
  - intros s. split; [done|]. exists []. split; [by rewrite app_nil_r|].
    intros p Hp. by apply elem_of_nil in Hp.
  - intros s1 s2 s3 (Hsub1 & fl1 & Hf1 & Hnew1) (Hsub2 & fl2 & Hf2 & Hnew2).
    split; [by etransitivity|]. exists (fl1 ++ fl2).
    split; [by rewrite Hf2, Hf1, app_assoc|].
    intros p Hp. apply elem_of_app in Hp as [Hp|Hp]; [by apply Hnew1|].
    intros Hin. apply (Hnew2 p Hp). by apply Hsub1.
Qed.

#[local] Instance keeps_work_preorder : PreOrder keeps_work.
Proof.
  split.
  - intros s. split; [done|].
    split; [exists []; by rewrite app_nil_r|].
    exists []. split; [by rewrite app_nil_r|].
    intros p cards Hp. by apply elem_of_nil in Hp.
  - intros s1 s2 s3 (Hsub1 & [ad1 Hc1] & al1 & Ha1 & Hin1)
                    (Hsub2 & [ad2 Hc2] & al2 & Ha2 & Hin2).
    split; [by etransitivity|].
    split; [exists (ad1 ++ ad2); by rewrite Hc2, Hc1, app_assoc|].
    exists (al1 ++ al2). split; [by rewrite Ha2, Ha1, app_assoc|].
    intros p cards Hp. apply elem_of_app in Hp as [Hp|Hp]; [|by apply Hin2].
    destruct (Hin1 p cards Hp) as [Hpage Hcards]. split.
    + apply bool_decide_eq_true. apply Hsub2. by apply bool_decide_eq_true in Hpage.
    + intros card Hcard. rewrite Hc2. apply elem_of_app. left. by apply Hcards.
Qed.

Lemma scrape_refetches_nothing (env : Env) (a b : option Z) (s : State) :
  refetches_nothing s (fst (scrape_all_pages env true a b s)).
Proof.
  rewrite scrape_all_pages_loop. cbn zeta.
  set (s0 := set_phase Running s).
  destruct (page_loop_logs env true (last_page env b)
              (budget env (first_page env a) (last_page env b))
              (first_page env a) zero s0) as (k & fl & _ & Hf & _ & Hnew).
  destruct (page_loop_store env true (last_page env b)
              (budget env (first_page env a) (last_page env b))
              (first_page env a) zero s0) as (_ & Hsub & _).
  destruct (page_loop _ _ _ _ _ _ _) as [s' [c|[| |]|]]; cbn [fst snd] in *;
    (split; [exact Hsub | exists fl; split; [exact Hf | by apply Hnew]]).
Qed.

Lemma scrape_keeps_work (env : Env) (flag : bool) (a b : option Z) (s : State) :
  keeps_work s (fst (scrape_all_pages env flag a b s)).
Proof.
  rewrite scrape_all_pages_loop. cbn zeta.
  set (s0 := set_phase Running s).
  destruct (page_loop_store env flag (last_page env b)
              (budget env (first_page env a) (last_page env b))
              (first_page env a) zero s0)
    as (_ & Hsub & _ & Hcol & al & Hal & Hin).
  destruct (page_loop _ _ _ _ _ _ _) as [s' [c|[| |]|]]; cbn [fst snd] in *;
    (split; [exact Hsub|]); (split; [exact Hcol|]);
    exists al; (split; [exact Hal|]);
    intros p cards Hp; destruct (Hin p cards Hp) as [Hpage Hcards];
    (split; [by apply bool_decide_eq_true | exact Hcards]).
Qed.

(** A resumed run that follows a completed one: it completes again, scrapes
    no page and leaves the store as it was. *)
Lemma scrape_again (env : Env) (a b : option Z) (s s1 : State) (stats1 : RunStatistics) :
  scrape_all_pages env true a b s = (s1, Ok stats1) ->
  exists s2 stats2,
    scrape_all_pages env true a b s1 = (s2, Ok stats2)
    /\ pages_scraped stats2 = 0
    /\ store s2 = store s1.
Proof.
  intros Hrun1.
  assert (Hok : snd (scrape_all_pages env true a b s) = Ok stats1) by (by rewrite Hrun1).
  destruct (completed_run_counters env true _ _ _ _ Hok) as (c & Hc & _ & Hs1).
  rewrite Hrun1 in Hs1. cbn in Hs1.
  destruct (page_loop_again env true _ _ _ _ _ c eq_refl Hc zero
              (set_phase Running s1)) as (d & Hd & Hzero & Hstore).
  { intros p _. rewrite Hs1. reflexivity. }
  pose proof (scrape_all_pages_loop env true a b s1) as Hrun2.
  cbn zeta in Hrun2. rewrite Hd in Hrun2. rewrite Hrun2.
  eexists _, _. split; [reflexivity|]. split; [exact Hzero|].
  cbn. exact Hstore.
Qed.

End OrchestratorFacts.

(** * Further properties of the driver *)

Module DriverExtras.

Import Driver Observe DriverFacts.

#[local] Arguments print_summary : simpl never.
#[local] Arguments str_in : simpl never.
#[local] Arguments announce : simpl never.
#[local] Arguments report : simpl never.
#[local] Arguments confirm : simpl never.
#[local] Arguments run_scraping : simpl never.
#[local] Arguments main_body : simpl never.
#[local] Arguments try_body : simpl never.
#[local] Arguments plan_lines : simpl never.
#[local] Arguments summary_lines : simpl never.
#[local] Arguments report_lines : simpl never.
#[local] Arguments debug_call : simpl never.

Section Blocks.

Context {S : Type}.
Variable sc : ScraperClass S.
Variable stdin : outcome str.

(** The script, from the way the [try] block of [main] ends. *)
Lemma script_by_try_body (args : Args) (w : World S) :
  script sc stdin args w =
  match try_body sc stdin args (started w) with
  | (w1, Ok _) => (w1, Some 0)
  | (w1, Raise KeyboardInterrupt) =>
      if scraper_bound w1 then
        match _cleanup_browser sc (scraper_state w1) with
        | (s2, Diverges) =>
            (mkWorld s2 (console w1 ++ notice) (calls w1 ++ [CallCleanupBrowser])
                     (log_debug w1) true, None)
        | (s2, _) =>
            (mkWorld s2 (console w1 ++ notice) (calls w1 ++ [CallCleanupBrowser])
                     (log_debug w1) true, Some 0)
        end
      else (say notice w1, Some 0)
  | (w1, Raise (FileNotFoundError msg)) =>
      (say [ConfigurationError msg; ConfigHint] w1, Some 0)
  | (w1, Raise (Exception msg)) =>
      (say [CriticalError msg; CheckLogs; FatalErrorLine msg] w1, Some 1)
  | (w1, Diverges) => (w1, None)
  end.
Proof.
  destruct w as [s co ca dbg bd].
  unfold script, main, handlers, try_except, bind, ret, raise, print, enter,
    print_banner, when, scraper_in_locals, invoke, started, say, notice.
  cbn.
  destruct (try_body sc stdin args _) as [[s1 co1 ca1 dbg1 bd1] [[]|[|msg|msg]|]];
    cbn; try reflexivity.
  - destruct bd1; cbn; [|flatten; reflexivity].
    destruct (_cleanup_browser sc s1) as [s2 [[]|e|]]; cbn; flatten; reflexivity.
  - flatten. reflexivity.
  - flatten. reflexivity.
Qed.

(** The [try] block when the constructor does not return. *)
Lemma try_body_unbuilt (args : Args) (w : World S) s1 r :
  ShoobCardScraper sc (scraper_state w) = (s1, r) ->
  (forall cfg, r <> Ok cfg) ->
  try_body sc stdin args (started w) =
  (mkWorld s1 (console w ++ [Banner; Initializing]) (calls w ++ [CallConstructor])
           (log_debug w) false,
   match r with Ok _ => Diverges | Raise e => Raise e | Diverges => Diverges end).
Proof.
  intros Hctor Hr. destruct w as [s co ca dbg bd]. cbn in Hctor.
  unfold try_body, started, bind, print, invoke. cbn. rewrite Hctor.
  destruct r as [cfg|e|]; [by destruct (Hr cfg) | |]; cbn; flatten; reflexivity.
Qed.

(** The [try] block with [--summary]. *)
Lemma try_body_summary (args : Args) (w : World S) s1 cfg :
  summary args = true ->
  ShoobCardScraper sc (scraper_state w) = (s1, Ok cfg) ->
  try_body sc stdin args (started w) =
  let built := mkWorld (fst (get_scraped_data_summary sc s1))
                 (console w ++ [Banner; Initializing; GeneratingSummary])
                 (calls w ++ [CallConstructor; CallSummary]) (log_debug w) true in
  match snd (get_scraped_data_summary sc s1) with
  | Ok d => (say (summary_lines d) built, Ok tt)
  | Raise e => (built, Raise e)
  | Diverges => (built, Diverges)
  end.
Proof.
  intros Hsum Hctor. destruct w as [s co ca dbg bd]. cbn in Hctor.
  unfold try_body, main_body, started, say, bind, print, invoke, assign_scraper.
  cbn. rewrite Hctor. cbn. rewrite Hsum.
  destruct (get_scraped_data_summary sc s1) as [s2 [d|e|]]; cbn;
    rewrite ?print_summary_lines; cbn; flatten; reflexivity.
Qed.

(** The [try] block without [--summary], up to the confirmation. *)
Lemma try_body_announced (args : Args) (w : World S) s1 cfg :
  summary args = false ->
  ShoobCardScraper sc (scraper_state w) = (s1, Ok cfg) ->
  try_body sc stdin args (started w) =
  match confirm stdin args (ready w s1 args cfg) with
  | (w1, Ok true) => run_scraping sc args cfg w1
  | (w1, Ok false) => (w1, Ok tt)
  | (w1, Raise e) => (w1, Raise e)
  | (w1, Diverges) => (w1, Diverges)
  end.
Proof.
  intros Hsum Hctor. destruct w as [s co ca dbg bd]. cbn in Hctor.
  unfold try_body, main_body, started, ready, bind, ret, print, invoke, assign_scraper.
  cbn. rewrite Hctor. cbn. rewrite Hsum, announce_run. cbn.
  replace ((co ++ [Banner]) ++ [Initializing]) with (co ++ [Banner; Initializing])
    by (flatten; reflexivity).
  rewrite <- !app_assoc.
  destruct (confirm stdin args _) as [w1 [[]|e|]]; reflexivity.
Qed.

(** The scraping run and what is shown after it. *)
Lemma run_scraping_run (args : Args) (cfg : Config) (w : World S) :
  run_scraping sc args cfg w =
  let scraping := scrape_all_pages sc (start args) (end_ args) (scraper_state w) in
  let called := calls w ++ [CallScrapeAllPages (start args) (end_ args)] in
  let begun := console w ++ [Starting; Dashes] in
  match snd scraping with
  | Ok stats =>
      if 0 <? cards_extracted stats then
        let summing := get_scraped_data_summary sc (fst scraping) in
        match snd summing with
        | Ok d =>
            (mkWorld (fst summing)
               (begun ++ report_lines stats ++ [GettingFinalSummary] ++ summary_lines d
                ++ [AllDataSaved (output_folder cfg); CompletedSuccessfully])
               (called ++ [CallSummary]) (log_debug w) (scraper_bound w), Ok tt)
        | Raise e =>
            (mkWorld (fst summing) (begun ++ report_lines stats ++ [GettingFinalSummary])
               (called ++ [CallSummary]) (log_debug w) (scraper_bound w), Raise e)
        | Diverges =>
            (mkWorld (fst summing) (begun ++ report_lines stats ++ [GettingFinalSummary])
               (called ++ [CallSummary]) (log_debug w) (scraper_bound w), Diverges)
        end
      else
        (mkWorld (fst scraping)
           (begun ++ report_lines stats
            ++ [AllDataSaved (output_folder cfg); CompletedSuccessfully])
           called (log_debug w) (scraper_bound w), Ok tt)
  | Raise e => (mkWorld (fst scraping) begun called (log_debug w) (scraper_bound w), Raise e)
  | Diverges => (mkWorld (fst scraping) begun called (log_debug w) (scraper_bound w), Diverges)
  end.
Proof.
  destruct w as [s co ca dbg bd]. cbn zeta. cbn [scraper_state console calls log_debug
    scraper_bound].
  unfold run_scraping, bind, print, invoke, when, ret. cbn.
  destruct (scrape_all_pages sc (start args) (end_ args) s) as [s2 [stats|e|]]; cbn;
    try (flatten; reflexivity).
  rewrite report_run. cbn.
  destruct (0 <? cards_extracted stats); cbn; [|flatten; reflexivity].
  destruct (get_scraped_data_summary sc s2) as [s3 [d|e|]]; cbn;
    rewrite ?print_summary_lines; cbn; flatten; reflexivity.
Qed.

(** The [try] block once the run may start. *)
Lemma try_body_confirmed (args : Args) (w : World S) s1 cfg :
  summary args = false ->
  ShoobCardScraper sc (scraper_state w) = (s1, Ok cfg) ->
  resume args = true \/ accepted stdin = true ->
  try_body sc stdin args (started w) =
  run_scraping sc args cfg (confirmed w s1 args cfg).
Proof.
  intros Hsum Hctor Hgo. rewrite (try_body_announced args w s1 cfg Hsum Hctor).
  rewrite confirm_run. unfold confirmed, ready.
  destruct (resume args) eqn:Hres.
  - cbn. rewrite !app_nil_r. reflexivity.
  - destruct Hgo as [Hgo|Hgo]; [discriminate|].
    destruct stdin as [answer|e|]; try discriminate Hgo.
    rewrite Hgo. cbn. rewrite <- !app_assoc. reflexivity.
Qed.

End Blocks.

(** ** [str.strip] and [str.lower] *)

Lemma lstrip_blank (pre s : str) :
  blank pre = true -> lstrip (pre ++ s) = lstrip s.
Proof.
  induction pre as [|c pre IH]; cbn [blank lstrip app]; [done|].
  intros [Hc Hpre]%andb_prop. rewrite Hc. by apply IH.
Qed.

Lemma lstrip_all_blank (post : str) : blank post = true -> lstrip post = [].
Proof.
  induction post as [|c post IH]; cbn [blank lstrip]; [done|].
  intros [Hc Hpost]%andb_prop. rewrite Hc. by apply IH.
Qed.

Lemma rstrip_blank (post : str) : blank post = true -> rstrip post = [].
Proof.
  induction post as [|c post IH]; cbn [blank rstrip]; [done|].
  intros [Hc Hpost]%andb_prop. by rewrite (IH Hpost), Hc.
Qed.

Lemma rstrip_app_blank (s post : str) :
  blank post = true -> rstrip (s ++ post) = rstrip s.
Proof.
  intros Hpost. induction s as [|c s IH]; cbn [rstrip app].
  - by apply rstrip_blank.
  - by rewrite IH.
Qed.

Lemma strip_padding (pre r post : str) :
  blank pre = true -> blank post = true ->
  strip (pre ++ r ++ post) = strip r.
Proof.
  intros Hpre Hpost. unfold strip. rewrite (lstrip_blank _ _ Hpre).
  induction r as [|c r IH]; cbn [lstrip app].
  - by rewrite (lstrip_all_blank post Hpost).
  - destruct (is_space c); [exact IH|].
    apply (rstrip_app_blank (c :: r) post Hpost).
Qed.

(** A letter of ASCII is no whitespace, before or after [lower]. *)
Lemma is_space_lower_char (c : N) : is_space (lower_char c) = is_space c.
Proof.
  unfold lower_char.
  destruct ((65 <=? c) && (c <=? 90))%N eqn:Hupper; [|reflexivity].
  apply andb_prop in Hupper as [Hlo Hhi].
  apply N.leb_le in Hlo, Hhi. unfold is_space.
  repeat match goal with
         | |- context [(?a <=? ?b)%N] =>
             destruct (N.leb_spec a b); try lia
         | |- context [(?a =? ?b)%N] =>
             destruct (N.eqb_spec a b); try lia
         end; reflexivity.
Qed.

Lemma lower_lstrip (s : str) : lower (lstrip s) = lstrip (lower s).
Proof.
  induction s as [|c s IH]; cbn [lstrip lower map]; [done|].
  rewrite is_space_lower_char. by destruct (is_space c).
Qed.

Lemma lower_rstrip (s : str) : lower (rstrip s) = rstrip (lower s).
Proof.
  induction s as [|c s IH]; cbn [rstrip lower map]; [done|].
  unfold lower in IH. rewrite <- IH, is_space_lower_char.
  destruct (rstrip s); cbn [map]; [by destruct (is_space c) | done].
Qed.

Lemma lower_strip (s : str) : lower (strip s) = strip (lower s).
Proof. unfold strip. by rewrite lower_rstrip, lower_lstrip. Qed.

(** ** [sorted] on a set of page numbers *)

Lemma ascending_strict (l : list Z) :
  StronglySorted Z.le l -> NoDup l -> StronglySorted Z.lt l.
Proof.
  induction 1 as [|x l Hl IH Hx]; intros Hnd; [constructor|].
  apply NoDup_cons in Hnd as [Hnot Hnd]. constructor; [by apply IH|].
  apply Forall_forall. intros y Hy.
  pose proof (proj1 (Forall_forall _ _) Hx y Hy) as Hle.
  assert (x <> y) by (intros ->; contradiction). lia.
Qed.

Lemma strict_ascending (l : list Z) :
  StronglySorted Z.lt l -> StronglySorted Z.le l /\ NoDup l.
Proof.
  induction 1 as [|x l Hl [IHle IHnd] Hx]; [split; constructor|].
  split.
  - constructor; [exact IHle|]. eapply Forall_impl; [exact Hx|]. intros y Hy. lia.
  - apply NoDup_cons. split; [|exact IHnd].
    intros Hin. pose proof (proj1 (Forall_forall _ _) Hx x Hin). lia.
Qed.

Lemma sorted_ascending (X : gset Z) :
  StronglySorted Z.lt (sorted X) /\ forall p, p ∈ sorted X <-> p ∈ X.
Proof.
  unfold sorted. split.
  - apply ascending_strict.
    + apply (StronglySorted_merge_sort Z.le); apply _.
    + rewrite merge_sort_Permutation. apply NoDup_elements.
  - intros p. rewrite merge_sort_Permutation. apply elem_of_elements.
Qed.

Lemma sorted_unique (X : gset Z) (ps : list Z) :
  StronglySorted Z.lt ps -> (forall p, p ∈ ps <-> p ∈ X) -> ps = sorted X.
Proof.
  intros [Hle Hnd]%strict_ascending Hsame.
  destruct (sorted_ascending X) as [[Hle' Hnd']%strict_ascending Hsame'].
  apply (StronglySorted_unique Z.le); [exact Hle|exact Hle'|].
  apply NoDup_Permutation; [exact Hnd|exact Hnd'|].
  intros p. by rewrite Hsame, Hsame'.
Qed.

Lemma truthy_set_nonempty (X : gset Z) : truthy X = true <-> X <> ∅.
Proof.
  unfold truthy, truthy_set, truthy, truthy_list.
  pose proof (elements_empty_iff X) as Hempty. unfold_leibniz.
  destruct (elements X) as [|x l].
  - split; [discriminate|]. intros Hne. destruct Hne. by apply Hempty.
  - split; [|done]. intros _ HX. apply Hempty in HX. discriminate.
Qed.

Ltac tidy :=
  unfold say, ready;
  cbn [fst snd scraper_state console calls log_debug scraper_bound].

(** The calls of a finished case, compared with [protocol]. *)
Ltac follows Hsum Hres :=
  tidy;
  eexists; split;
  [ rewrite <- ?app_assoc; cbn [app]; reflexivity
  | unfold protocol; rewrite ?Hsum, ?Hres; cbn [app];
    first
      [ left; reflexivity
      | right; left; split; [reflexivity|]; (left; reflexivity) || (right; reflexivity)
      | right; right; left; repeat split; reflexivity
      | right; right; right; split; [reflexivity|];
        eexists; split; [|reflexivity];
        unfold after_scraping;
        rewrite !elem_of_cons; tauto ] ].

Section Extras.

Context {S : Type}.
Variable sc : ScraperClass S.
Variable stdin : outcome str.

(** X2. When the constructor raises, the constructor is the only call that
    was made: after the lines for the exception the process exits, with
    status 0 for an interrupt or a missing file and 1 otherwise, and
    [_cleanup_browser] is not called, the name [scraper] being unbound. *)
Theorem failing_constructor_is_not_cleaned_up (args : Args) (w : World S) s1 e :
  ShoobCardScraper sc (scraper_state w) = (s1, Raise e) ->
  script sc stdin args w =
  (mkWorld s1
     (console w ++ [Banner; Initializing]
      ++ match e with
         | KeyboardInterrupt => notice
         | FileNotFoundError msg => [ConfigurationError msg; ConfigHint]
         | Exception msg => [CriticalError msg; CheckLogs; FatalErrorLine msg]
         end)
     (calls w ++ [CallConstructor]) (log_debug w) false,
   match e with Exception _ => Some 1 | _ => Some 0 end).
Proof.
  intros Hctor. rewrite script_by_try_body.
  rewrite (try_body_unbuilt sc stdin args w s1 (Raise e) Hctor) by discriminate.
  unfold say, notice. destruct e as [|msg|msg]; cbn; flatten; reflexivity.
Qed.

(** X3. Without [--resume] and [--summary], an exception at the prompt that
    is neither [KeyboardInterrupt] nor [FileNotFoundError] (the [EOFError]
    of a closed standard input, say) is not caught at the prompt: it is
    reported as a critical error, nothing is scraped and the exit status
    is 1. *)
Theorem failing_prompt_exits_1 (args : Args) (w : World S) s1 cfg msg :
  summary args = false -> resume args = false ->
  ShoobCardScraper sc (scraper_state w) = (s1, Ok cfg) ->
  stdin = Raise (Exception msg) ->
  script sc stdin args w =
  (mkWorld s1
     (console w ++ [Banner; Initializing] ++ plan_lines args cfg
      ++ [CriticalError msg; CheckLogs; FatalErrorLine msg])
     (calls w ++ [CallConstructor] ++ debug_call args ++ [CallInput])
     (log_debug w || verbose args) true,
   Some 1).
Proof.
  intros Hsum Hres Hctor Hin. rewrite script_by_try_body.
  rewrite (try_body_announced sc stdin args w s1 cfg Hsum Hctor).
  rewrite confirm_run, Hres, Hin. unfold ready, say. cbn. flatten. reflexivity.
Qed.

(** X4. A [FileNotFoundError] raised by [scrape_all_pages] is taken for a
    configuration error like one raised during setup: the two lines of the
    configuration error follow the start of the scraping, nothing more is
    called (no cleanup either), and the exit status is 0. *)
Theorem missing_file_while_scraping_exits_0 (args : Args) (w : World S) s1 cfg s2 msg :
  summary args = false ->
  ShoobCardScraper sc (scraper_state w) = (s1, Ok cfg) ->
  resume args = true \/ accepted stdin = true ->
  scrape_all_pages sc (start args) (end_ args) s1 = (s2, Raise (FileNotFoundError msg)) ->
  let c := confirmed w s1 args cfg in
  script sc stdin args w =
  (mkWorld s2
     (console c ++ [Starting; Dashes; ConfigurationError msg; ConfigHint])
     (calls c ++ [CallScrapeAllPages (start args) (end_ args)])
     (log_debug c) true,
   Some 0).
Proof.
  intros Hsum Hctor Hgo Hscr. cbn zeta. rewrite script_by_try_body.
  rewrite (try_body_confirmed sc stdin args w s1 cfg Hsum Hctor Hgo).
  rewrite run_scraping_run. cbn zeta.
  unfold confirmed. cbn [scraper_state console calls log_debug scraper_bound].
  rewrite Hscr. cbn [fst snd].
  unfold say. cbn [scraper_state console calls log_debug scraper_bound].
  flatten. reflexivity.
Qed.

(** X5. Any other exception raised by [scrape_all_pages] ends the run with
    status 1: the critical error and the fatal error follow the start of
    the scraping, no result is shown, and [main] calls neither the summary
    nor the cleanup of the browser on this path. *)
Theorem failing_scrape_exits_1 (args : Args) (w : World S) s1 cfg s2 msg :
  summary args = false ->
  ShoobCardScraper sc (scraper_state w) = (s1, Ok cfg) ->
  resume args = true \/ accepted stdin = true ->
  scrape_all_pages sc (start args) (end_ args) s1 = (s2, Raise (Exception msg)) ->
  let c := confirmed w s1 args cfg in
  script sc stdin args w =
  (mkWorld s2
     (console c ++ [Starting; Dashes; CriticalError msg; CheckLogs; FatalErrorLine msg])
     (calls c ++ [CallScrapeAllPages (start args) (end_ args)])
     (log_debug c) true,
   Some 1).
Proof.
  intros Hsum Hctor Hgo Hscr. cbn zeta. rewrite script_by_try_body.
  rewrite (try_body_confirmed sc stdin args w s1 cfg Hsum Hctor Hgo).
  rewrite run_scraping_run. cbn zeta.
  unfold confirmed. cbn [scraper_state console calls log_debug scraper_bound].
  rewrite Hscr. cbn [fst snd].
  unfold say. cbn [scraper_state console calls log_debug scraper_bound].
  flatten. reflexivity.
Qed.

(** X6. When the user interrupts [scrape_all_pages], the notice is printed,
    [_cleanup_browser] is called once, on the state the scraping left, and
    whatever it returns or raises is swallowed: the scraper is left as the
    cleanup left it and the exit status is 0. *)
Theorem interrupted_scrape_is_cleaned_up (args : Args) (w : World S) s1 cfg s2 s3 r :
  summary args = false ->
  ShoobCardScraper sc (scraper_state w) = (s1, Ok cfg) ->
  resume args = true \/ accepted stdin = true ->
  scrape_all_pages sc (start args) (end_ args) s1 = (s2, Raise KeyboardInterrupt) ->
  _cleanup_browser sc s2 = (s3, r) -> r <> Diverges ->
  let c := confirmed w s1 args cfg in
  script sc stdin args w =
  (mkWorld s3
     (console c ++ [Starting; Dashes] ++ notice)
     (calls c ++ [CallScrapeAllPages (start args) (end_ args); CallCleanupBrowser])
     (log_debug c) true,
   Some 0).
Proof.
  intros Hsum Hctor Hgo Hscr Hclean Hr. cbn zeta. rewrite script_by_try_body.
  rewrite (try_body_confirmed sc stdin args w s1 cfg Hsum Hctor Hgo).
  rewrite run_scraping_run. cbn zeta.
  unfold confirmed. cbn [scraper_state console calls log_debug scraper_bound].
  rewrite Hscr. cbn [fst snd scraper_state console calls log_debug scraper_bound].
  rewrite Hclean. unfold notice.
  destruct r as [[]|e|]; [| |by destruct Hr]; flatten; reflexivity.
Qed.

(** X7. After a scraping run that returns, the results shown are the
    statistics it returned, field by field.  The summary is asked for
    exactly when [cards_extracted] is positive: with no card the run ends
    right after the results, without another call; with cards and a summary
    that returns, the summary is printed between the results and the two
    closing lines.  The exit status is 0 in both cases. *)
Theorem completed_scrape_is_reported (args : Args) (w : World S) s1 cfg s2 stats :
  summary args = false ->
  ShoobCardScraper sc (scraper_state w) = (s1, Ok cfg) ->
  resume args = true \/ accepted stdin = true ->
  scrape_all_pages sc (start args) (end_ args) s1 = (s2, Ok stats) ->
  let c := confirmed w s1 args cfg in
  (cards_extracted stats <= 0 ->
     script sc stdin args w =
     (mkWorld s2
        (console c ++ [Starting; Dashes] ++ report_lines stats
         ++ [AllDataSaved (output_folder cfg); CompletedSuccessfully])
        (calls c ++ [CallScrapeAllPages (start args) (end_ args)])
        (log_debug c) true,
      Some 0))
  /\ (0 < cards_extracted stats ->
      forall s3 d, get_scraped_data_summary sc s2 = (s3, Ok d) ->
      script sc stdin args w =
      (mkWorld s3
         (console c ++ [Starting; Dashes] ++ report_lines stats
          ++ [GettingFinalSummary] ++ summary_lines d
          ++ [AllDataSaved (output_folder cfg); CompletedSuccessfully])
         (calls c ++ [CallScrapeAllPages (start args) (end_ args); CallSummary])
         (log_debug c) true,
       Some 0)).
Proof.
  intros Hsum Hctor Hgo Hscr. cbn zeta. rewrite script_by_try_body.
  rewrite (try_body_confirmed sc stdin args w s1 cfg Hsum Hctor Hgo).
  rewrite run_scraping_run. cbn zeta.
  unfold confirmed. cbn [scraper_state console calls log_debug scraper_bound].
  rewrite Hscr. cbn [fst snd].
  split.
  - intros Hnone. apply Z.ltb_ge in Hnone. rewrite Hnone. flatten. reflexivity.
  - intros Hsome s3 d Hget. apply Z.ltb_lt in Hsome. rewrite Hsome, Hget.
    cbn [fst snd]. flatten. reflexivity.
Qed.

(** X8. When the summary that closes a completed scraping run raises an
    exception that is neither [KeyboardInterrupt] nor [FileNotFoundError],
    the run ends with status 1 although the pages were scraped: the results
    are shown, the two closing lines are not. *)
Theorem failing_final_summary_exits_1 (args : Args) (w : World S)
    s1 cfg s2 stats s3 msg :
  summary args = false ->
  ShoobCardScraper sc (scraper_state w) = (s1, Ok cfg) ->
  resume args = true \/ accepted stdin = true ->
  scrape_all_pages sc (start args) (end_ args) s1 = (s2, Ok stats) ->
  0 < cards_extracted stats ->
  get_scraped_data_summary sc s2 = (s3, Raise (Exception msg)) ->
  let c := confirmed w s1 args cfg in
  script sc stdin args w =
  (mkWorld s3
     (console c ++ [Starting; Dashes] ++ report_lines stats
      ++ [GettingFinalSummary; CriticalError msg; CheckLogs; FatalErrorLine msg])
     (calls c ++ [CallScrapeAllPages (start args) (end_ args); CallSummary])
     (log_debug c) true,
   Some 1).
Proof.
  intros Hsum Hctor Hgo Hscr Hcards Hget. cbn zeta. rewrite script_by_try_body.
  rewrite (try_body_confirmed sc stdin args w s1 cfg Hsum Hctor Hgo).
  rewrite run_scraping_run. cbn zeta.
  unfold confirmed. cbn [scraper_state console calls log_debug scraper_bound].
  rewrite Hscr. cbn [fst snd].
  apply Z.ltb_lt in Hcards. rewrite Hcards, Hget. cbn [fst snd].
  unfold say. cbn [scraper_state console calls log_debug scraper_bound].
  flatten. reflexivity.
Qed.


(** X9. [--summary] takes precedence over every other option: the run is
    the one of the bare [--summary] command line, whatever [--start],
    [--end], [--resume], [--verbose] and [--config] say and whatever waits
    on the standard input, since neither the plan nor the prompt nor the
    change of the log level is reached. *)
Theorem summary_flag_overrides_the_rest (args : Args) (stdin' : outcome str)
    (w : World S) :
  summary args = true ->
  script sc stdin args w = script sc stdin' (mkArgs None None false true None false) w.
Proof.
  intros Hsum. rewrite !script_by_try_body.
  destruct (ShoobCardScraper sc (scraper_state w)) as [s1 [cfg|e|]] eqn:Hctor.
  - rewrite (try_body_summary sc stdin args w s1 cfg Hsum Hctor).
    rewrite (try_body_summary sc stdin' (mkArgs None None false true None false) w s1 cfg
               eq_refl Hctor). reflexivity.
  - rewrite (try_body_unbuilt sc stdin args w s1 (Raise e) Hctor) by discriminate.
    rewrite (try_body_unbuilt sc stdin' _ w s1 (Raise e) Hctor) by discriminate.
    reflexivity.
  - rewrite (try_body_unbuilt sc stdin args w s1 Diverges Hctor) by discriminate.
    rewrite (try_body_unbuilt sc stdin' _ w s1 Diverges Hctor) by discriminate.
    reflexivity.
Qed.

(** X10. The page numbers given with [--start] and [--end] reach
    [scrape_all_pages] as they were given, while the plan shown before is
    built on their truth value: a start or an end of 0 is announced as if
    the option were absent (the value of the configuration, or the
    automatic end), and 0 is still what the scraper is called with. *)
Theorem zero_bounds_are_announced_as_unset (args : Args) (cfg : Config) (w : World S) :
  announce (with_start (Some 0) args) cfg w = announce (with_start None args) cfg w
  /\ announce (with_end (Some 0) args) cfg w = announce (with_end None args) cfg w
  /\ exists rest,
       calls (fst (run_scraping sc (with_start (Some 0) (with_end (Some 0) args)) cfg w))
       = calls w ++ CallScrapeAllPages (Some 0) (Some 0) :: rest.
Proof.
  split; [|split].
  - rewrite !announce_run. reflexivity.
  - rewrite !announce_run. reflexivity.
  - rewrite run_scraping_run. cbn zeta. cbn [start end_ with_start with_end].
    destruct (scrape_all_pages sc (Some 0) (Some 0) (scraper_state w)) as [s2 [stats|e|]];
      tidy; [|by exists [] |by exists []].
    destruct (0 <? cards_extracted stats); [|by exists []].
    destruct (get_scraped_data_summary sc s2) as [s3 [d|e|]]; cbn [fst snd calls];
      exists [CallSummary]; flatten; reflexivity.
Qed.

(** X11. The answer at the prompt is compared after [strip] and [lower]:
    whitespace around it and the case of its ASCII letters do not change
    what the confirmation does, and an answer of whitespace only lets the
    run start only when [--resume] skips the prompt. *)
Theorem confirmation_ignores_case_and_padding (args : Args) (w : World S)
    (pre r post r' : str) :
  blank pre = true -> blank post = true -> lower r = lower r' ->
  confirm (Ok (pre ++ r ++ post)) args w = confirm (Ok r') args w
  /\ snd (confirm (Ok (pre ++ post)) args w) = Ok (resume args).
Proof.
  intros Hpre Hpost Hlow. rewrite !confirm_run. unfold accepted.
  split.
  - rewrite (strip_padding pre r post Hpre Hpost), !lower_strip, Hlow. reflexivity.
  - change (pre ++ post) with (pre ++ [] ++ post).
    rewrite (strip_padding pre [] post Hpre Hpost).
    by destruct (resume args).
Qed.

(** X12. The calls of a run follow one protocol, whatever the scraper and
    the prompt do: the constructor comes first; with [--summary] only the
    summary may follow, and the cleanup after it; otherwise the log level
    is set if [--verbose], the prompt is asked unless [--resume], and
    [scrape_all_pages] is called at most once, with the bounds of the
    command line, followed at most by one summary and, last, one cleanup. *)
Theorem calls_follow_the_protocol (args : Args) (w : World S) :
  exists cs, calls (fst (script sc stdin args w)) = calls w ++ cs /\ protocol args cs.
Proof.
  rewrite script_by_try_body.
  destruct (ShoobCardScraper sc (scraper_state w)) as [s1 [cfg|e|]] eqn:Hctor.
  - destruct (summary args) eqn:Hsum.
    + rewrite (try_body_summary sc stdin args w s1 cfg Hsum Hctor). cbn zeta.
      destruct (get_scraped_data_summary sc s1) as [s2 [d|[|m|m]|]]; tidy;
        [| destruct (_cleanup_browser sc s2) as [s3 [[]|e|]] | | |]; follows Hsum Hsum.
    + rewrite (try_body_announced sc stdin args w s1 cfg Hsum Hctor), confirm_run.
      destruct (resume args) eqn:Hres;
        [| destruct stdin as [r|[|m|m]|]; [destruct (accepted (Ok r))|..]];
        tidy; try (by follows Hsum Hres);
        (rewrite run_scraping_run; tidy;
         destruct (scrape_all_pages sc (start args) (end_ args) s1) as [s2 [stats|[|m|m]|]];
         tidy;
         [ destruct (0 <? cards_extracted stats);
           [ destruct (get_scraped_data_summary sc s2) as [s3 [d|[|m|m]|]]; tidy;
             [| destruct (_cleanup_browser sc s3) as [s4 [[]|e|]] | | |]
           |]
         | destruct (_cleanup_browser sc s2) as [s3 [[]|e|]] | | |];
         follows Hsum Hres).
  - rewrite (try_body_unbuilt sc stdin args w s1 (Raise e) Hctor) by discriminate.
    destruct e; follows Hctor Hctor.
  - rewrite (try_body_unbuilt sc stdin args w s1 Diverges Hctor) by discriminate.
    follows Hctor Hctor.
Qed.

(** X13. [print_summary] shows the scraped pages on one line, present
    exactly when the summary has a non-empty set of pages: the line lists
    the pages of the set, each once, in strictly ascending order.  Without
    the key, or with no page, there is no such line. *)
Theorem summary_lists_pages_in_ascending_order (d : Summary) (w : World S) (ps : list Z) :
  SummaryPages ps ∈ new_lines w (fst (print_summary d w)) <->
  exists X, scraped_pages d = Some X /\ X <> ∅
            /\ StronglySorted Z.lt ps /\ forall p, p ∈ ps <-> p ∈ X.
Proof.
  rewrite print_summary_lines. unfold new_lines. cbn [fst console].
  rewrite drop_app_length. unfold summary_lines.
  change (map SummarySampleCard ?l) with (SummarySampleCard <$> l).
  rewrite !elem_of_app, !elem_of_cons, elem_of_nil.
  split.
  - intros [Hhead|[Hpages|[Hcards|[Hsize|Hrule]]]].
    + destruct Hhead as [?|[?|[?|[?|[?|[]]]]]]; discriminate.
    + destruct (scraped_pages d) as [X|] eqn:HX; [|by apply elem_of_nil in Hpages].
      change (truthy (Some X)) with (truthy X) in Hpages.
      destruct (truthy X) eqn:Hne; [|by apply elem_of_nil in Hpages].
      apply list_elem_of_singleton in Hpages. injection Hpages as ->.
      exists X. split; [done|]. split; [by apply truthy_set_nonempty|].
      apply sorted_ascending.
    + destruct (truthy (sample_cards d)); [|by apply elem_of_nil in Hcards].
      apply elem_of_cons in Hcards as [?|Hcards]; [discriminate|].
      apply list_elem_of_fmap in Hcards as (c & ? & _). discriminate.
    + destruct (truthy (file_size_mb d)); [|by apply elem_of_nil in Hsize].
      apply list_elem_of_singleton in Hsize. discriminate.
    + destruct Hrule as [?|[]]. discriminate.
  - intros (X & HX & Hne & Hsorted & Hsame).
    right. left. rewrite HX.
    change (truthy (Some X)) with (truthy X).
    rewrite (proj2 (truthy_set_nonempty X) Hne).
    apply list_elem_of_singleton. f_equal. by apply sorted_unique.
Qed.

(** X14. [print_summary] always returns, whatever keys the summary lacks,
    and touches nothing but the console: it makes no call and leaves the
    scraper and the log level as they are.  It prints at least 6 and at
    most 12 lines, whatever the number of pages and cards: a missing output
    file is shown as N/A and a missing card count as 0, framed by the
    title between two rules and a closing rule. *)
Theorem print_summary_is_bounded (d : Summary) (w : World S) :
  let w' := fst (print_summary d w) in
  snd (print_summary d w) = Ok tt
  /\ scraper_state w' = scraper_state w /\ calls w' = calls w
  /\ log_debug w' = log_debug w
  /\ (exists body,
        new_lines w w' =
          [SummaryRule; SummaryTitle; SummaryRule;
           SummaryOutputFile (default "N/A" (output_file d));
           SummaryTotalCards (default 0 (total_cards d))]
          ++ body ++ [SummaryRule]
        /\ (length body <= 6)%nat).
Proof.
  cbn zeta. rewrite print_summary_lines. unfold new_lines.
  cbn [fst snd scraper_state console calls log_debug].
  rewrite drop_app_length. repeat split.
  unfold summary_lines. eexists. split.
  - f_equal. rewrite !app_assoc. reflexivity.
  - rewrite !length_app.
    assert (length (take 3 (default [] (sample_cards d))) <= 3)%nat
      by (rewrite length_take; lia).
    destruct (truthy (scraped_pages d)), (truthy (sample_cards d)),
      (truthy (file_size_mb d)); cbn [length]; rewrite ?length_map; lia.
Qed.

(** X16. With [--summary], an exception raised by the summary (other than
    an interrupt) ends the run after the line that announces the summary:
    a [FileNotFoundError] as a configuration error with status 0, any
    other exception as a critical error with status 1.  Nothing of the
    summary is printed and the browser is not cleaned up. *)
Theorem failing_summary_is_reported (args : Args) (w : World S) s1 cfg s2 e :
  summary args = true ->
  ShoobCardScraper sc (scraper_state w) = (s1, Ok cfg) ->
  get_scraped_data_summary sc s1 = (s2, Raise e) ->
  e <> KeyboardInterrupt ->
  script sc stdin args w =
  (mkWorld s2
     (console w ++ [Banner; Initializing; GeneratingSummary]
      ++ match e with
         | FileNotFoundError msg => [ConfigurationError msg; ConfigHint]
         | Exception msg => [CriticalError msg; CheckLogs; FatalErrorLine msg]
         | KeyboardInterrupt => []
         end)
     (calls w ++ [CallConstructor; CallSummary]) (log_debug w) true,
   match e with Exception _ => Some 1 | _ => Some 0 end).
Proof.
  intros Hsum Hctor Hget He. rewrite script_by_try_body.
  rewrite (try_body_summary sc stdin args w s1 cfg Hsum Hctor). cbn zeta.
  rewrite Hget. destruct e as [|msg|msg]; [by destruct He| |]; tidy; flatten; reflexivity.
Qed.
End Extras.

End DriverExtras.

(** * The driver and the orchestrator together *)

Module RunFacts.

Import Driver Observe DriverFacts DriverExtras.

#[local] Existing Instance OrchestratorFacts.keeps_work_preorder.
#[local] Existing Instance OrchestratorFacts.refetches_nothing_preorder.

#[local] Arguments print_summary : simpl never.
#[local] Arguments str_in : simpl never.
#[local] Arguments announce : simpl never.
#[local] Arguments report : simpl never.
#[local] Arguments confirm : simpl never.
#[local] Arguments run_scraping : simpl never.
#[local] Arguments main_body : simpl never.
#[local] Arguments try_body : simpl never.
#[local] Arguments plan_lines : simpl never.
#[local] Arguments summary_lines : simpl never.
#[local] Arguments report_lines : simpl never.
#[local] Arguments debug_call : simpl never.

(** The calls of a finished case of the [try] block hold no cleanup, and
    the scraper is bound once it is built. *)
Ltac unreleased :=
  tidy;
  eexists; split;
  [ rewrite <- ?app_assoc; cbn [app]; reflexivity
  | split;
    [ unfold debug_call;
      try match goal with |- context [verbose ?a] => destruct (verbose a) end;
      cbn [app]; not_listed
    | intros ? ? Hbuilt; first [discriminate Hbuilt | reflexivity] ] ].

Section Generic.

Context {S : Type}.
Variable sc : ScraperClass S.
Variable stdin : outcome str.

(** The [try] block of [main] never calls [_cleanup_browser], and it binds
    the name [scraper] as soon as the constructor has returned. *)
Lemma try_body_releases_nothing (args : Args) (w : World S) :
  exists cs,
    calls (fst (try_body sc stdin args (started w))) = calls w ++ cs
    /\ (CallCleanupBrowser ∉ cs)
    /\ forall s1 cfg, ShoobCardScraper sc (scraper_state w) = (s1, Ok cfg) ->
         scraper_bound (fst (try_body sc stdin args (started w))) = true.
Proof.
  destruct (ShoobCardScraper sc (scraper_state w)) as [s1 [cfg|e|]] eqn:Hctor.
  - destruct (summary args) eqn:Hsum.
    + rewrite (try_body_summary sc stdin args w s1 cfg Hsum Hctor). cbn zeta.
      destruct (get_scraped_data_summary sc s1) as [s2 [d|e|]]; unreleased.
    + rewrite (try_body_announced sc stdin args w s1 cfg Hsum Hctor), confirm_run.
      destruct (resume args) eqn:Hres;
        [| destruct stdin as [r|[|m|m]|]; [destruct (accepted (Ok r))|..]];
        tidy; try (by unreleased);
        (rewrite run_scraping_run; tidy;
         destruct (scrape_all_pages sc (start args) (end_ args) s1) as [s2 [stats|e|]];
         tidy;
         [ destruct (0 <? cards_extracted stats);
           [ destruct (get_scraped_data_summary sc s2) as [s3 [d|e|]]; tidy |]
         | |];
         unreleased).
  - rewrite (try_body_unbuilt sc stdin args w s1 (Raise e) Hctor) by discriminate.
    unreleased.
  - rewrite (try_body_unbuilt sc stdin args w s1 Diverges Hctor) by discriminate.
    unreleased.
Qed.

(** [--resume] reaches the scraper through no call: a run with it, and a
    run without it whose prompt is answered with a yes, leave the scraper
    in the same state and end with the same status. *)
Lemma resume_option_is_not_passed (stdin' : outcome str) (args : Args) (w : World S) :
  accepted stdin' = true ->
  scraper_state (fst (script sc stdin (with_resume true args) w)) =
    scraper_state (fst (script sc stdin' (with_resume false args) w))
  /\ snd (script sc stdin (with_resume true args) w) =
     snd (script sc stdin' (with_resume false args) w).
Proof.
  intros Hyes. rewrite !script_by_try_body.
  destruct (ShoobCardScraper sc (scraper_state w)) as [s1 [cfg|e|]] eqn:Hctor.
  - destruct (summary args) eqn:Hsum.
    + rewrite (try_body_summary sc stdin (with_resume true args) w s1 cfg Hsum Hctor).
      rewrite (try_body_summary sc stdin' (with_resume false args) w s1 cfg Hsum Hctor).
      split; reflexivity.
    + rewrite (try_body_confirmed sc stdin (with_resume true args) w s1 cfg Hsum Hctor
                 (or_introl eq_refl)).
      rewrite (try_body_confirmed sc stdin' (with_resume false args) w s1 cfg Hsum Hctor
                 (or_intror Hyes)).
      rewrite !run_scraping_run. cbn zeta. unfold confirmed, with_resume.
      cbn [scraper_state console calls log_debug scraper_bound start end_].
      destruct (scrape_all_pages sc (start args) (end_ args) s1) as [s2 [stats|[|m|m]|]];
        tidy;
        [ destruct (0 <? cards_extracted stats);
          [ destruct (get_scraped_data_summary sc s2) as [s3 [d|[|m|m]|]]; tidy;
            [| destruct (_cleanup_browser sc s3) as [s4 [[]|e|]] | | |]
          |]
        | destruct (_cleanup_browser sc s2) as [s3 [[]|e|]] | | |];
        split; reflexivity.
  - rewrite (try_body_unbuilt sc stdin (with_resume true args) w s1 (Raise e) Hctor)
      by discriminate.
    rewrite (try_body_unbuilt sc stdin' (with_resume false args) w s1 (Raise e) Hctor)
      by discriminate.
    split; reflexivity.
  - rewrite (try_body_unbuilt sc stdin (with_resume true args) w s1 Diverges Hctor)
      by discriminate.
    rewrite (try_body_unbuilt sc stdin' (with_resume false args) w s1 Diverges Hctor)
      by discriminate.
    split; reflexivity.
Qed.


End Generic.


End RunFacts.

(** * Sample runs *)

Module Samples.

Import Driver Orchestrator.


(** [--summary] on the empty store ends with status 0. *)
Lemma summary_flag_prints_and_exits_witness :
  snd (script (scraper (sample_env fetch_two_pages) false) (Ok (str_of "y")) summary_only
         (mkWorld (initial empty_store) [] [] false false)) = Some 0.
Proof.
  exact (f_equal snd
           (proj1 (DriverFacts.summary_flag_prints_and_exits
                     (scraper (sample_env fetch_two_pages) false) (Ok (str_of "y")) summary_only
                     (mkWorld (initial empty_store) [] [] false false)
                     (initial empty_store) sample_config (initial empty_store)
                     (summarize (sample_env fetch_two_pages) empty_store)
                     eq_refl eq_refl eq_refl))).
Defined.

(** An interrupt at the confirmation prompt: the process exits with status
    0, it has printed that scraping was cancelled, and it has not printed
    the pointer to [--resume]. *)
Lemma interrupt_at_prompt_prints_no_resume_notice :
  snd (program (sample_env fetch_two_pages) false (Raise KeyboardInterrupt) no_flags
         (initial empty_store)) = Some 0
  /\ CancelledByUser ∈ console (fst (program (sample_env fetch_two_pages)
                                       false (Raise KeyboardInterrupt) no_flags
                                       (initial empty_store)))
  /\ UseResumeFlag ∉ console (fst (program (sample_env fetch_two_pages)
                                     false (Raise KeyboardInterrupt) no_flags
                                     (initial empty_store))).
Proof.
  assert (Hrun : program (sample_env fetch_two_pages) false (Raise KeyboardInterrupt) no_flags
                   (initial empty_store) =
                 (mkWorld (initial empty_store)
                    [Banner; Initializing; PlanHeader; PlanStartConfig 1; PlanEndAuto;
                     PlanLiveSave; PlanDataFolder "data"; CancelledByUser]
                    [CallConstructor; CallInput] false true, Some 0))
    by (vm_compute; reflexivity).
  rewrite Hrun. cbn [fst snd console]. split; [reflexivity|]. split.
  - rewrite !elem_of_cons. tauto.
  - DriverFacts.not_listed.
Qed.

(** The user interrupts the fetch of page 3: the notice is printed and the
    status is 0. *)
Lemma exit_status_by_outcome_witness :
  snd (script (scraper (sample_env fetch_interrupted_at_3) false) (Ok (str_of "yes")) no_flags
         (mkWorld (initial empty_store) [] [] false false)) = Some 0.
Proof.
  pose proof (DriverFacts.exit_status_by_outcome
                (scraper (sample_env fetch_interrupted_at_3) false) (Ok (str_of "yes")) no_flags
                (mkWorld (initial empty_store) [] [] false false)
                (fst (try_body (scraper (sample_env fetch_interrupted_at_3) false)
                        (Ok (str_of "yes")) no_flags
                        (started (mkWorld (initial empty_store) [] [] false false))))
                (Raise KeyboardInterrupt)) as H.
  cbn zeta in H.
  assert (Hbody : try_body (scraper (sample_env fetch_interrupted_at_3) false)
                    (Ok (str_of "yes")) no_flags
                    (started (mkWorld (initial empty_store) [] [] false false)) =
                  (fst (try_body (scraper (sample_env fetch_interrupted_at_3) false)
                          (Ok (str_of "yes")) no_flags
                          (started (mkWorld (initial empty_store) [] [] false false))),
                   Raise KeyboardInterrupt))
    by (vm_compute; reflexivity).
  destruct (H Hbody) as [[_ Hstatus] _]. apply Hstatus. vm_compute. discriminate.
Defined.

(** Cards on pages 1 and 2, none on page 3, no end page: the run completes
    at page 3. *)
Lemma ascending_pages_and_end_of_data_witness :
  phase (fst (scrape_all_pages (sample_env fetch_two_pages) false None None
                (initial empty_store))) = Completed
  /\ visit_log (fst (scrape_all_pages (sample_env fetch_two_pages) false None None
                       (initial empty_store))) = [1; 2; 3].
Proof.
  destruct (OrchestratorFacts.ascending_pages_and_end_of_data
              (sample_env fetch_two_pages) false None None (initial empty_store))
    as (_ & _ & Hopen & _).
  destruct (Hopen eq_refl) as [Hends _].
  destruct (Hends 2%nat) as (stats & _ & Hphase & Hvisits & _).
  - cbn. lia.
  - reflexivity.
  - reflexivity.
  - intros p Hp. right. right. exists [a_card].
    assert (Hcases : p = 1 \/ p = 2) by (cbn in Hp; lia).
    destruct Hcases as [-> | ->]; repeat split; (discriminate || (left; discriminate)).
  - split; [exact Hphase | exact Hvisits].
Defined.

(** Pages 1 to 3 with 5, 0 and 4 cards: the success rate is 100. *)
Lemma success_rate_is_a_percentage_witness :
  (success_rate (statistics 2%Q (mkCounters 3 0 9 0)) == 100)%Q.
Proof.
  destruct (OrchestratorFacts.success_rate_is_a_percentage
              (sample_env fetch_5_0_4) false (Some 1) (Some 3) (initial empty_store)
              (statistics 2%Q (mkCounters 3 0 9 0)))
    as (_ & _ & _ & _ & Hfull); [vm_compute; reflexivity|].
  apply Hfull; [reflexivity | reflexivity].
Defined.



(** Section 8: cards on pages 1 and 2, nothing on page 3, no end page.  The
    run completes with two pages scraped and no error. *)
Example two_pages_then_end_of_data :
  snd (scrape_all_pages (sample_env fetch_two_pages) false None None
         (initial empty_store)) = Ok (statistics 2%Q (mkCounters 2 0 2 0))
  /\ visit_log (fst (scrape_all_pages (sample_env fetch_two_pages) false None None
                       (initial empty_store))) = [1; 2; 3].
Proof. split; vm_compute; reflexivity. Qed.

(** Without [config.py] the script ends with status 0 after the
    configuration error. *)
Lemma missing_configuration_stops_the_run_witness :
  script (scraper env_without_config false) (Ok (str_of "y")) no_flags
    (mkWorld (initial empty_store) [] [] false false) =
  (mkWorld (initial empty_store)
     [Banner; Initializing; ConfigurationError "config.py"; ConfigHint]
     [CallConstructor] false false,
   Some 0).
Proof.
  apply (DriverFacts.missing_configuration_stops_the_run
           (scraper env_without_config false) (Ok (str_of "y")) no_flags
           (mkWorld (initial empty_store) [] [] false false)
           (initial empty_store) "config.py").
  reflexivity.
Defined.

(** The answer [" No "] is not accepted: nothing is fetched or stored. *)
Lemma confirmation_before_scraping_witness :
  scraper_state (fst (script (scraper (sample_env fetch_two_pages) false) (Ok (str_of " No "))
                        no_flags (mkWorld (initial empty_store) [] [] false false))) =
  initial empty_store.
Proof.
  destruct (DriverFacts.confirmation_before_scraping
              (scraper (sample_env fetch_two_pages) false) (Ok (str_of " No ")) no_flags
              (mkWorld (initial empty_store) [] [] false false)
              (initial empty_store) sample_config eq_refl eq_refl)
    as (Hdeclined & _).
  destruct (Hdeclined eq_refl eq_refl) as (Hstate & _). exact Hstate.
Defined.

(** The answer [y] followed by a no-break space (U+00A0) and an em space
    (U+2003), which [strip] removes like any whitespace: it is accepted. *)
Example unicode_padding_is_stripped :
  accepted (Ok (str_of "y" ++ [160; 8195]%N)) = true.
Proof. reflexivity. Qed.

End Samples.

(** * Sample runs of the driver alone *)

Module ExtraSamples.

Import Driver Observe.

(** The constructor is interrupted: the notice, and no cleanup. *)
Lemma failing_constructor_is_not_cleaned_up_witness :
  script (scripted (Raise KeyboardInterrupt) Diverges Diverges Diverges) (Ok (str_of "y"))
         (mkArgs None None false false None false) fresh =
  (mkWorld 1%nat
     [Banner; Initializing; InterruptedByUser; CompletedPagesSaved; UseResumeFlag]
     [CallConstructor] false false,
   Some 0).
Proof.
  exact (DriverExtras.failing_constructor_is_not_cleaned_up
           (scripted (Raise KeyboardInterrupt) Diverges Diverges Diverges) (Ok (str_of "y"))
           (mkArgs None None false false None false) fresh 1%nat KeyboardInterrupt
           eq_refl).
Defined.

(** The standard input is closed: status 1, and no scraping. *)
Lemma failing_prompt_exits_1_witness :
  (fun r => (calls (fst r), snd r))
    (script (scripted (Ok some_config) Diverges Diverges Diverges)
            (Raise (Exception "EOF when reading a line"))
            (mkArgs None None false false None false) fresh) =
  ([CallConstructor; CallInput], Some 1).
Proof.
  exact (f_equal (fun r => (calls (fst r), snd r))
           (DriverExtras.failing_prompt_exits_1
              (scripted (Ok some_config) Diverges Diverges Diverges)
              (Raise (Exception "EOF when reading a line"))
              (mkArgs None None false false None false) fresh 1%nat some_config
              "EOF when reading a line" eq_refl eq_refl eq_refl eq_refl)).
Defined.

(** The scraping run misses a file: status 0, and no cleanup. *)
Lemma missing_file_while_scraping_exits_0_witness :
  (fun r => (calls (fst r), snd r))
    (script (scripted (Ok some_config) Diverges
                      (Raise (FileNotFoundError "cards.json")) Diverges)
            (Ok (str_of "y")) (mkArgs (Some 2) None false false None false) fresh) =
  ([CallConstructor; CallInput; CallScrapeAllPages (Some 2) None], Some 0).
Proof.
  exact (f_equal (fun r => (calls (fst r), snd r))
           (DriverExtras.missing_file_while_scraping_exits_0
              (scripted (Ok some_config) Diverges
                        (Raise (FileNotFoundError "cards.json")) Diverges)
              (Ok (str_of "y")) (mkArgs (Some 2) None false false None false) fresh
              1%nat some_config 2%nat "cards.json"
              eq_refl eq_refl (or_intror eq_refl) eq_refl)).
Defined.

(** The scraping run fails under [--resume]: status 1, and no cleanup. *)
Lemma failing_scrape_exits_1_witness :
  (fun r => (calls (fst r), snd r))
    (script (scripted (Ok some_config) Diverges (Raise (Exception "timeout")) Diverges)
            Diverges (mkArgs None None true false None false) fresh) =
  ([CallConstructor; CallScrapeAllPages None None], Some 1).
Proof.
  exact (f_equal (fun r => (calls (fst r), snd r))
           (DriverExtras.failing_scrape_exits_1
              (scripted (Ok some_config) Diverges (Raise (Exception "timeout")) Diverges)
              Diverges (mkArgs None None true false None false) fresh
              1%nat some_config 2%nat "timeout"
              eq_refl eq_refl (or_introl eq_refl) eq_refl)).
Defined.

(** The scraping run is interrupted and the cleanup fails: status 0. *)
Lemma interrupted_scrape_is_cleaned_up_witness :
  (fun r => (scraper_state (fst r), calls (fst r), snd r))
    (script (scripted (Ok some_config) Diverges (Raise KeyboardInterrupt)
                      (Raise (Exception "browser is gone")))
            (Ok (str_of "yes")) (mkArgs None (Some 9) false false None false) fresh) =
  (3%nat,
   [CallConstructor; CallInput; CallScrapeAllPages None (Some 9); CallCleanupBrowser],
   Some 0).
Proof.
  refine (f_equal (fun r => (scraper_state (fst r), calls (fst r), snd r))
           (DriverExtras.interrupted_scrape_is_cleaned_up
              (scripted (Ok some_config) Diverges (Raise KeyboardInterrupt)
                        (Raise (Exception "browser is gone")))
              (Ok (str_of "yes")) (mkArgs None (Some 9) false false None false) fresh
              1%nat some_config 2%nat 3%nat (Raise (Exception "browser is gone"))
              eq_refl eq_refl (or_intror eq_refl) eq_refl eq_refl _)).
  discriminate.
Defined.

(** A run with 7 cards: the summary is asked for, status 0. *)
Lemma completed_scrape_is_reported_witness :
  (fun r => (calls (fst r), snd r))
    (script (scripted (Ok some_config) (Ok some_summary) (Ok (some_stats 7)) Diverges)
            (Ok (str_of "Y")) (mkArgs None None false false None false) fresh) =
  ([CallConstructor; CallInput; CallScrapeAllPages None None; CallSummary], Some 0).
Proof.
  destruct (DriverExtras.completed_scrape_is_reported
              (scripted (Ok some_config) (Ok some_summary) (Ok (some_stats 7)) Diverges)
              (Ok (str_of "Y")) (mkArgs None None false false None false) fresh
              1%nat some_config 2%nat (some_stats 7)
              eq_refl eq_refl (or_intror eq_refl) eq_refl) as [_ Hcards].
  exact (f_equal (fun r => (calls (fst r), snd r))
           (Hcards eq_refl 3%nat some_summary eq_refl)).
Defined.

(** A run with 7 cards whose final summary fails: status 1. *)
Lemma failing_final_summary_exits_1_witness :
  snd (script (scripted (Ok some_config) (Raise (Exception "bad file"))
                        (Ok (some_stats 7)) Diverges)
              (Ok (str_of "y")) (mkArgs None None false false None false) fresh) = Some 1.
Proof.
  exact (f_equal snd
           (DriverExtras.failing_final_summary_exits_1
              (scripted (Ok some_config) (Raise (Exception "bad file"))
                        (Ok (some_stats 7)) Diverges)
              (Ok (str_of "y")) (mkArgs None None false false None false) fresh
              1%nat some_config 2%nat (some_stats 7) 3%nat "bad file"
              eq_refl eq_refl (or_intror eq_refl) eq_refl eq_refl eq_refl)).
Defined.

(** [--summary] with every other option, and a refusal waiting on the
    standard input, against the bare [--summary]. *)
Lemma summary_flag_overrides_the_rest_witness :
  script (scripted (Ok some_config) (Ok some_summary) Diverges Diverges) (Ok (str_of "n"))
         (mkArgs (Some 3) (Some 4) true true (Some "config.json") true) fresh =
  script (scripted (Ok some_config) (Ok some_summary) Diverges Diverges) Diverges
         (mkArgs None None false true None false) fresh.
Proof.
  exact (DriverExtras.summary_flag_overrides_the_rest
           (scripted (Ok some_config) (Ok some_summary) Diverges Diverges) (Ok (str_of "n"))
           (mkArgs (Some 3) (Some 4) true true (Some "config.json") true) Diverges fresh
           eq_refl).
Defined.

(** The answer [YES] between a no-break space (U+00A0) and an ideographic
    space (U+3000) is the answer [yes]. *)
Lemma confirmation_ignores_case_and_padding_witness :
  confirm (Ok ([160%N] ++ str_of "YES" ++ [12288%N]))
          (mkArgs None None false false None false) fresh =
  confirm (Ok (str_of "yes")) (mkArgs None None false false None false) fresh.
Proof.
  exact (proj1 (DriverExtras.confirmation_ignores_case_and_padding
                  (mkArgs None None false false None false) fresh
                  [160%N] (str_of "YES") [12288%N] (str_of "yes")
                  eq_refl eq_refl eq_refl)).
Defined.

(** [--summary] without the data file: a configuration error, status 0. *)
Lemma failing_summary_is_reported_witness :
  script (scripted (Ok some_config) (Raise (FileNotFoundError "cards.json")) Diverges
                   Diverges)
         Diverges (mkArgs None None false true None false) fresh =
  (mkWorld 2%nat
     [Banner; Initializing; GeneratingSummary;
      ConfigurationError "cards.json"; ConfigHint]
     [CallConstructor; CallSummary] false true,
   Some 0).
Proof.
  refine (DriverExtras.failing_summary_is_reported
            (scripted (Ok some_config) (Raise (FileNotFoundError "cards.json")) Diverges
                      Diverges)
            Diverges (mkArgs None None false true None false) fresh
            1%nat some_config 2%nat (FileNotFoundError "cards.json")
            eq_refl eq_refl eq_refl _).
  discriminate.
Defined.

End ExtraSamples.
